(** * LumixEngine input system: a shallow embedding of
      [src/engine/input_system.cpp]

    The file embeds [InputSystemImpl] (device registry, per-frame event
    queue, cursor position, enabled flag) and states its specification
    as theorems about the embedded functions.

    Modelling conventions.
    - A [Device*] is its address ([DevicePtr], a natural number); pointer
      comparison is equality of addresses.
    - [Array<T>] is a [list T] in storage order: [push] appends at the
      tail, [clear] yields the empty list, [size] is the length.  Sizes
      and indices are [int] in the source and [Z] here; the length of an
      array is not bounded.
    - The allocator behind [m_allocator] is represented by the trace of
      the [LUMIX_DELETE] calls issued on it, oldest first.
    - Code that can hit an [ASSERT] returns a [Result].
    - [Device::update] of devices defined outside the file and the static
      functions of [ControllerDevice] are parameters of the development:
      each one observes the system through its query methods and answers
      with the sequence of mutator calls it issues on the system.
    - A device object is opaque: its [type] tag and its name are not
      members of the system and play no part in the functions embedded
      here.
    - [registerLuaAPI] only publishes integer constants to the scripting
      state and touches no member of the system, and [PROFILE_FUNCTION]
      only records timing; both are left out. *)

From Stdlib Require Import ZArith Floats.
From stdpp Require Import base tactics option list strings gmap.

(** ** Data model *)

Definition DevicePtr := nat.

(** Modelled from the spec: [InputSystem::Event] is declared in
    [engine/input_system.h], which is not part of the sources.  The spec
    describes an event as a record tagged with a kind ([DEVICE_ADDED],
    [DEVICE_REMOVED], plus device-specific kinds) and a non-owning
    reference to the originating device.  These are the two fields the
    file writes; device-specific payloads are not represented. *)
Inductive EventType : Type :=
  | DEVICE_ADDED
  | DEVICE_REMOVED
  | DEVICE_SPECIFIC (kind : nat).

Record Event : Type := mkEvent {
  type : EventType;
  device : DevicePtr
}.

(** Modelled from the spec: [Vec2] ([engine/vec.h]) is a 2D coordinate. *)
Record Vec2 : Type := mkVec2 {
  vec_x : float;
  vec_y : float
}.

(** The allocator, seen through the deallocations requested from it. *)
Record IAllocator : Type := mkAllocator {
  released : list DevicePtr
}.

Record InputSystemImpl : Type := mkInputSystemImpl {
  m_allocator : IAllocator;
  m_mouse_device : DevicePtr;
  m_keyboard_device : DevicePtr;
  m_events : list Event;
  m_is_enabled : bool;
  m_cursor_pos : Vec2;
  m_devices : list DevicePtr;
  m_to_remove : list DevicePtr
}.

(** Field updates. *)
Definition set_allocator (a : IAllocator) (s : InputSystemImpl) :=
  mkInputSystemImpl a (m_mouse_device s) (m_keyboard_device s) (m_events s)
    (m_is_enabled s) (m_cursor_pos s) (m_devices s) (m_to_remove s).

Definition set_events (es : list Event) (s : InputSystemImpl) :=
  mkInputSystemImpl (m_allocator s) (m_mouse_device s) (m_keyboard_device s) es
    (m_is_enabled s) (m_cursor_pos s) (m_devices s) (m_to_remove s).

Definition set_is_enabled (b : bool) (s : InputSystemImpl) :=
  mkInputSystemImpl (m_allocator s) (m_mouse_device s) (m_keyboard_device s)
    (m_events s) b (m_cursor_pos s) (m_devices s) (m_to_remove s).

Definition set_cursor_pos (p : Vec2) (s : InputSystemImpl) :=
  mkInputSystemImpl (m_allocator s) (m_mouse_device s) (m_keyboard_device s)
    (m_events s) (m_is_enabled s) p (m_devices s) (m_to_remove s).

Definition set_devices (ds : list DevicePtr) (s : InputSystemImpl) :=
  mkInputSystemImpl (m_allocator s) (m_mouse_device s) (m_keyboard_device s)
    (m_events s) (m_is_enabled s) (m_cursor_pos s) ds (m_to_remove s).

Definition set_to_remove (ds : list DevicePtr) (s : InputSystemImpl) :=
  mkInputSystemImpl (m_allocator s) (m_mouse_device s) (m_keyboard_device s)
    (m_events s) (m_is_enabled s) (m_cursor_pos s) (m_devices s) ds.

(** ** Faults *)

Inductive Result (A : Type) : Type :=
  | Ok (a : A)
  | AssertionFailed.
Arguments Ok {A} a.
Arguments AssertionFailed {A}.

Definition bind {A B : Type} (r : Result A) (k : A -> Result B) : Result B :=
  match r with
  | Ok a => k a
  | AssertionFailed => AssertionFailed
  end.

Notation "'let*' x ':=' r 'in' k" := (bind r (fun x => k))
  (at level 10, x name, r at level 100, k at level 200).

(** Modelled from the spec: the [ASSERT] macro is defined outside the
    sources; the spec makes a failed assertion fatal. *)
Definition ASSERT (cond : bool) : Result unit :=
  if cond then Ok tt else AssertionFailed.

(** ** Array helpers *)

(** Modelled from the spec: [Array::eraseItem] ([engine/array.h]) is not
    part of the sources.  It erases the item from the array: a scan from
    the front that drops the first element equal to [item] and keeps the
    order of the others; an array without the item is left as it is. *)
Fixpoint eraseItem (item : DevicePtr) (a : list DevicePtr) : list DevicePtr :=
  match a with
  | [] => []
  | d :: a' => if Nat.eqb d item then a' else d :: eraseItem item a'
  end.

(** The array after a sequence of [eraseItem]. *)
Definition erase_all (rs a : list DevicePtr) : list DevicePtr :=
  fold_left (fun acc d => eraseItem d acc) rs a.

(** [LUMIX_DELETE(m_allocator, device)]. *)
Definition LUMIX_DELETE (d : DevicePtr) (s : InputSystemImpl) : InputSystemImpl :=
  set_allocator (mkAllocator (released (m_allocator s) ++ [d])) s.

(** ** Mutators *)

Definition enable (enabled : bool) (s : InputSystemImpl) : InputSystemImpl :=
  set_is_enabled enabled s.

Definition injectEvent (event : Event) (s : InputSystemImpl) : InputSystemImpl :=
  set_events (m_events s ++ [event]) s.

Definition addDevice (d : DevicePtr) (s : InputSystemImpl) : InputSystemImpl :=
  let s1 := set_devices (m_devices s ++ [d]) s in
  injectEvent (mkEvent DEVICE_ADDED d) s1.

Definition removeDevice (d : DevicePtr) (s : InputSystemImpl)
  : Result InputSystemImpl :=
  let* _ := ASSERT (negb (Nat.eqb d (m_keyboard_device s))) in
  let* _ := ASSERT (negb (Nat.eqb d (m_mouse_device s))) in
  let s1 := set_to_remove (m_to_remove s ++ [d]) s in
  Ok (injectEvent (mkEvent DEVICE_REMOVED d) s1).

Definition setCursorPosition (pos : Vec2) (s : InputSystemImpl) : InputSystemImpl :=
  set_cursor_pos pos s.

(** ** Queries *)

Definition getAllocator (s : InputSystemImpl) : IAllocator := m_allocator s.

Definition getEventsCount (s : InputSystemImpl) : Z :=
  Z.of_nat (length (m_events s)).

(** [None] is [nullptr]; [Some es] is the address of the first element of
    the contiguous storage, which holds [es]. *)
Definition getEvents (s : InputSystemImpl) : option (list Event) :=
  match m_events s with
  | [] => None
  | _ :: _ => Some (m_events s)
  end.

Definition getCursorPosition (s : InputSystemImpl) : Vec2 := m_cursor_pos s.

Definition getDevicesCount (s : InputSystemImpl) : Z :=
  Z.of_nat (length (m_devices s)).

(** [m_devices[index]]: the element at [index] when there is one; [None]
    stands for an access outside the array. *)
Definition getDevice (index : Z) (s : InputSystemImpl) : option DevicePtr :=
  if (index <? 0)%Z then None else m_devices s !! Z.to_nat index.

Definition getMouseDevice (s : InputSystemImpl) : DevicePtr := m_mouse_device s.
Definition getKeyboardDevice (s : InputSystemImpl) : DevicePtr := m_keyboard_device s.

(** ** Collaborators

    What a collaborator can learn from the system: the answers of the
    query methods.  The enabled flag has no query method. *)
Record View : Type := mkView {
  view_events : list Event;
  view_cursor : Vec2;
  view_devices : list DevicePtr;
  view_mouse : DevicePtr;
  view_keyboard : DevicePtr
}.

Definition observe (s : InputSystemImpl) : View :=
  mkView (m_events s) (getCursorPosition s) (m_devices s)
    (getMouseDevice s) (getKeyboardDevice s).

(** A call of one of the mutators of the public interface. *)
Inductive Call : Type :=
  | CallEnable (enabled : bool)
  | CallAddDevice (d : DevicePtr)
  | CallRemoveDevice (d : DevicePtr)
  | CallInjectEvent (event : Event)
  | CallSetCursorPosition (pos : Vec2).

Definition perform (c : Call) (s : InputSystemImpl) : Result InputSystemImpl :=
  match c with
  | CallEnable b => Ok (enable b s)
  | CallAddDevice d => Ok (addDevice d s)
  | CallRemoveDevice d => removeDevice d s
  | CallInjectEvent e => Ok (injectEvent e s)
  | CallSetCursorPosition p => Ok (setCursorPosition p s)
  end.

Fixpoint run_calls (cs : list Call) (s : InputSystemImpl)
  : Result InputSystemImpl :=
  match cs with
  | [] => Ok s
  | c :: cs' => let* s1 := perform c s in run_calls cs' s1
  end.

(** The code outside the file that runs inside the constructor and inside
    [update]: [Device::update] overrides of registered external devices,
    [ControllerDevice::init] and [ControllerDevice::frame]. *)
Record Collaborators : Type := mkCollaborators {
  external_update : DevicePtr -> float -> View -> list Call;
  ControllerDevice_init : View -> list Call;
  ControllerDevice_frame : float -> View -> list Call
}.

(** What a sequence of calls registers, marks and enqueues. *)
Definition call_added (c : Call) : list DevicePtr :=
  match c with CallAddDevice d => [d] | _ => [] end.

Definition call_removed (c : Call) : list DevicePtr :=
  match c with CallRemoveDevice d => [d] | _ => [] end.

Definition call_events (c : Call) : list Event :=
  match c with
  | CallAddDevice d => [mkEvent DEVICE_ADDED d]
  | CallRemoveDevice d => [mkEvent DEVICE_REMOVED d]
  | CallInjectEvent e => [e]
  | _ => []
  end.

Definition is_setCursorPosition (c : Call) : bool :=
  match c with CallSetCursorPosition _ => true | _ => false end.

(** The footprint of a successful sequence of calls. *)
Definition frame_of (cs : list Call) (s s' : InputSystemImpl) : Prop :=
  m_devices s' = m_devices s ++ flat_map call_added cs
  /\ m_to_remove s' = m_to_remove s ++ flat_map call_removed cs
  /\ m_events s' = m_events s ++ flat_map call_events cs
  /\ m_allocator s' = m_allocator s
  /\ m_mouse_device s' = m_mouse_device s
  /\ m_keyboard_device s' = m_keyboard_device s
  /\ Forall (fun d => d <> m_keyboard_device s /\ d <> m_mouse_device s)
       (flat_map call_removed cs).

(** The registry invariant: the built-in devices come first and are never
    pending for removal. *)
Definition builtin_free (s : InputSystemImpl) (ds : list DevicePtr) : Prop :=
  Forall (fun d => d <> m_keyboard_device s /\ d <> m_mouse_device s) ds.

Definition registry_ok (s : InputSystemImpl) : Prop :=
  (exists rest,
      m_devices s = m_keyboard_device s :: m_mouse_device s :: rest)
  /\ builtin_free s (m_to_remove s).

(** ** Per-frame update *)

Section InputSystem.

Variable env : Collaborators.

(** [device->update(dt)]: virtual dispatch.  The objects created by the
    constructor are a [MouseDevice] and a [KeyboardDevice], whose [update]
    has an empty body. *)
Definition Device_update (s : InputSystemImpl) (d : DevicePtr) (dt : float)
  : list Call :=
  if Nat.eqb d (m_mouse_device s) then []
  else if Nat.eqb d (m_keyboard_device s) then []
  else external_update env d dt (observe s).

(** [for (Device* device : m_to_remove) { m_devices.eraseItem(device);
    LUMIX_DELETE(m_allocator, device); }] *)
Definition finalize_one (s : InputSystemImpl) (d : DevicePtr) : InputSystemImpl :=
  LUMIX_DELETE d (set_devices (eraseItem d (m_devices s)) s).

Definition finalize_removals (s : InputSystemImpl) : InputSystemImpl :=
  fold_left finalize_one (m_to_remove s) s.

(** Calls a collaborator can issue while [update(dt)] runs. *)
Definition issued_during (dt : float) (c : Call) : Prop :=
  (exists d v, c ∈ external_update env d dt v)
  \/ (exists v, c ∈ ControllerDevice_frame env dt v).

(** The state in which the first device is updated. *)
Definition frame_start (s : InputSystemImpl) : InputSystemImpl :=
  set_events [] (finalize_removals s).

(** [for (Device* device : m_devices) device->update(dt);] over the
    elements the array holds when the loop starts. *)
Fixpoint update_devices (dt : float) (ds : list DevicePtr) (s : InputSystemImpl)
  : Result InputSystemImpl :=
  match ds with
  | [] => Ok s
  | d :: ds' =>
      let* s1 := run_calls (Device_update s d dt) s in
      update_devices dt ds' s1
  end.

Definition update (dt : float) (s : InputSystemImpl) : Result InputSystemImpl :=
  let s1 := finalize_removals s in
  let s2 := set_events [] s1 in
  let* s3 := update_devices dt (m_devices s2) s2 in
  run_calls (ControllerDevice_frame env dt (observe s3)) s3.

(** ** Construction

    [allocator] is the engine's allocator, [mouse] and [keyboard] are the
    addresses returned by the two [LUMIX_NEW]; [m_cursor_pos] has no
    initialiser and starts with the indeterminate value [cursor]. *)
Definition InputSystemImpl_new (allocator : IAllocator)
    (mouse keyboard : DevicePtr) (cursor : Vec2) : Result InputSystemImpl :=
  let s := mkInputSystemImpl allocator mouse keyboard [] false cursor
             [keyboard; mouse] [] in
  run_calls (ControllerDevice_init env (observe s)) s.

(** ** Runs of the system *)

Inductive Op : Type :=
  | OpCall (c : Call)
  | OpUpdate (dt : float).

Definition step (op : Op) (s : InputSystemImpl) : Result InputSystemImpl :=
  match op with
  | OpCall c => perform c s
  | OpUpdate dt => update dt s
  end.

Fixpoint run (ops : list Op) (s : InputSystemImpl) : Result InputSystemImpl :=
  match ops with
  | [] => Ok s
  | op :: ops' => let* s1 := step op s in run ops' s1
  end.

Inductive reachable : InputSystemImpl -> Prop :=
  | reachable_new allocator mouse keyboard cursor s :
      mouse <> keyboard ->
      InputSystemImpl_new allocator mouse keyboard cursor = Ok s ->
      reachable s
  | reachable_step op s s' :
      reachable s -> step op s = Ok s' -> reachable s'.

(** An operation during which nobody calls [setCursorPosition]. *)
Definition keeps_cursor (op : Op) : Prop :=
  match op with
  | OpCall c => is_setCursorPosition c = false
  | OpUpdate dt => forall c, issued_during dt c -> is_setCursorPosition c = false
  end.

(** The calls performed on the system in the course of an operation that
    leads from [s] to [s']: the call itself, or the calls that collaborators
    issue once [update] has finalised the pending removals and cleared the
    queue. *)
Definition performed_in (op : Op) (s s' : InputSystemImpl) (cs : list Call)
  : Prop :=
  match op with
  | OpCall c => cs = [c]
  | OpUpdate dt =>
      Forall (issued_during dt) cs /\ run_calls cs (frame_start s) = Ok s'
  end.

End InputSystem.

(** Two systems that agree on every member but [m_is_enabled]. *)
Definition same_but_enabled (s1 s2 : InputSystemImpl) : Prop :=
  set_is_enabled false s1 = set_is_enabled false s2.

(** Two results that fail together or succeed with related values. *)
Definition Result_rel {A : Type} (R : A -> A -> Prop) (r1 r2 : Result A) : Prop :=
  match r1, r2 with
  | Ok a1, Ok a2 => R a1 a2
  | AssertionFailed, AssertionFailed => True
  | _, _ => False
  end.

(** A gamepad backend for the examples: the controller source registers
    device [7] in the first frame it sees without it, and every external
    device reports one button event per frame. *)
Definition gamepad_env : Collaborators :=
  mkCollaborators
    (fun d _ _ => [CallInjectEvent (mkEvent (DEVICE_SPECIFIC 0) d)])
    (fun _ => [])
    (fun _ v => if decide (7 ∈ view_devices v) then [] else [CallAddDevice 7]).

(** Collaborators that never call back into the system. *)
Definition quiet_env : Collaborators :=
  mkCollaborators (fun _ _ _ => []) (fun _ => []) (fun _ _ => []).

(** A freshly constructed system: mouse at address 1, keyboard at 2. *)
Definition fresh_system : InputSystemImpl :=
  mkInputSystemImpl (mkAllocator []) 1 2 [] false (mkVec2 0 0) [2; 1] [].

(** The same system with a gamepad registered at address 5. *)
Definition gamepad_system : InputSystemImpl := addDevice 5 fresh_system.

(** ** Destruction

    [~InputSystemImpl]: [ControllerDevice::shutdown()], another function
    defined outside the file and taken as a parameter like the other
    collaborators, then [LUMIX_DELETE] on every element of [m_devices].
    What outlives the system is the allocator. *)
Definition release_devices (s : InputSystemImpl) : InputSystemImpl :=
  fold_left (fun acc d => LUMIX_DELETE d acc) (m_devices s) s.

Definition InputSystemImpl_delete (ControllerDevice_shutdown : View -> list Call)
    (s : InputSystemImpl) : Result IAllocator :=
  let* s1 := run_calls (ControllerDevice_shutdown (observe s)) s in
  Ok (m_allocator (release_devices s1)).

(** What a call leaves in [m_cursor_pos] and in [m_is_enabled]. *)
Definition call_cursor (p : Vec2) (c : Call) : Vec2 :=
  match c with CallSetCursorPosition q => q | _ => p end.

Definition call_enabled (b : bool) (c : Call) : bool :=
  match c with CallEnable e => e | _ => b end.

(** Collaborators for which every external device enqueues one event of
    its own per frame and the controller source is idle. *)
Definition reporting_env (report : DevicePtr -> Event) : Collaborators :=
  mkCollaborators (fun d _ _ => [CallInjectEvent (report d)])
    (fun _ => []) (fun _ _ => []).

(** Devices whose [update] is not one of the two empty built-in bodies. *)
Definition is_external (s : InputSystemImpl) (d : DevicePtr) : bool :=
  negb (Nat.eqb d (m_mouse_device s)) && negb (Nat.eqb d (m_keyboard_device s)).

Definition is_enable (c : Call) : bool :=
  match c with CallEnable _ => true | _ => false end.

(** An operation during which nobody calls [enable]. *)
Definition keeps_enabled (env : Collaborators) (op : Op) : Prop :=
  match op with
  | OpCall c => is_enable c = false
  | OpUpdate dt => forall c, issued_during env dt c -> is_enable c = false
  end.

(** ** Scripting constants

    [registerLuaAPI] publishes one integer variable per key identifier, first
    the scancodes and then the keycodes, in the order of the lists below.
    The identifier is what the macro argument spells: [REGISTER_SCANCODE(A)]
    names the variable [INPUT_SCANCODE_A] and gives it the value of
    [SDL_SCANCODE_A]. *)
Definition scancodes : list string :=
  ["A"; "B"; "C"; "D"; "E"; "F"; "G"; "H"; "I"; "J"; "K"; "L"; "M"; "N";
   "O"; "P"; "Q"; "R"; "S"; "T"; "U"; "V"; "W"; "X"; "Y"; "Z"; "1"; "2";
   "3"; "4"; "5"; "6"; "7"; "8"; "9"; "0"; "RETURN"; "ESCAPE"; "BACKSPACE";
   "TAB"; "SPACE"; "MINUS"; "EQUALS"; "LEFTBRACKET"; "RIGHTBRACKET";
   "BACKSLASH"; "NONUSHASH"; "SEMICOLON"; "APOSTROPHE"; "GRAVE"; "COMMA";
   "PERIOD"; "SLASH"; "CAPSLOCK"; "F1"; "F2"; "F3"; "F4"; "F5"; "F6"; "F7";
   "F8"; "F9"; "F10"; "F11"; "F12"; "PRINTSCREEN"; "SCROLLLOCK"; "PAUSE";
   "INSERT"; "HOME"; "PAGEUP"; "DELETE"; "END"; "PAGEDOWN"; "RIGHT";
   "LEFT"; "DOWN"; "UP"; "NUMLOCKCLEAR"; "KP_DIVIDE"; "KP_MULTIPLY";
   "KP_MINUS"; "KP_PLUS"; "KP_ENTER"; "KP_1"; "KP_2"; "KP_3"; "KP_4";
   "KP_5"; "KP_6"; "KP_7"; "KP_8"; "KP_9"; "KP_0"; "KP_PERIOD";
   "NONUSBACKSLASH"; "APPLICATION"; "POWER"; "KP_EQUALS"; "F13"; "F14";
   "F15"; "F16"; "F17"; "F18"; "F19"; "F20"; "F21"; "F22"; "F23"; "F24";
   "EXECUTE"; "HELP"; "MENU"; "SELECT"; "STOP"; "AGAIN"; "UNDO"; "CUT";
   "COPY"; "PASTE"; "FIND"; "MUTE"; "VOLUMEUP"; "VOLUMEDOWN"; "KP_COMMA";
   "KP_EQUALSAS400"; "INTERNATIONAL1"; "INTERNATIONAL2"; "INTERNATIONAL3";
   "INTERNATIONAL4"; "INTERNATIONAL5"; "INTERNATIONAL6"; "INTERNATIONAL7";
   "INTERNATIONAL8"; "INTERNATIONAL9"; "LANG1"; "LANG2"; "LANG3"; "LANG4";
   "LANG5"; "LANG6"; "LANG7"; "LANG8"; "LANG9"; "ALTERASE"; "SYSREQ";
   "CANCEL"; "CLEAR"; "PRIOR"; "RETURN2"; "SEPARATOR"; "OUT"; "OPER";
   "CLEARAGAIN"; "CRSEL"; "EXSEL"; "KP_00"; "KP_000"; "THOUSANDSSEPARATOR";
   "DECIMALSEPARATOR"; "CURRENCYUNIT"; "CURRENCYSUBUNIT"; "KP_LEFTPAREN";
   "KP_RIGHTPAREN"; "KP_LEFTBRACE"; "KP_RIGHTBRACE"; "KP_TAB";
   "KP_BACKSPACE"; "KP_A"; "KP_B"; "KP_C"; "KP_D"; "KP_E"; "KP_F";
   "KP_XOR"; "KP_POWER"; "KP_PERCENT"; "KP_LESS"; "KP_GREATER";
   "KP_AMPERSAND"; "KP_DBLAMPERSAND"; "KP_VERTICALBAR";
   "KP_DBLVERTICALBAR"; "KP_COLON"; "KP_HASH"; "KP_SPACE"; "KP_AT";
   "KP_EXCLAM"; "KP_MEMSTORE"; "KP_MEMRECALL"; "KP_MEMCLEAR"; "KP_MEMADD";
   "KP_MEMSUBTRACT"; "KP_MEMMULTIPLY"; "KP_MEMDIVIDE"; "KP_PLUSMINUS";
   "KP_CLEAR"; "KP_CLEARENTRY"; "KP_BINARY"; "KP_OCTAL"; "KP_DECIMAL";
   "KP_HEXADECIMAL"; "LCTRL"; "LSHIFT"; "LALT"; "LGUI"; "RCTRL"; "RSHIFT";
   "RALT"; "RGUI"; "MODE"; "AUDIONEXT"; "AUDIOPREV"; "AUDIOSTOP";
   "AUDIOPLAY"; "AUDIOMUTE"; "MEDIASELECT"; "WWW"; "MAIL"; "CALCULATOR";
   "COMPUTER"; "AC_SEARCH"; "AC_HOME"; "AC_BACK"; "AC_FORWARD"; "AC_STOP";
   "AC_REFRESH"; "AC_BOOKMARKS"; "BRIGHTNESSDOWN"; "BRIGHTNESSUP";
   "DISPLAYSWITCH"; "KBDILLUMTOGGLE"; "KBDILLUMDOWN"; "KBDILLUMUP";
   "EJECT"; "SLEEP"; "APP1"; "APP2"].

Definition keycodes : list string :=
  ["RETURN"; "ESCAPE"; "BACKSPACE"; "TAB"; "SPACE"; "EXCLAIM"; "QUOTEDBL";
   "HASH"; "PERCENT"; "DOLLAR"; "AMPERSAND"; "QUOTE"; "LEFTPAREN";
   "RIGHTPAREN"; "ASTERISK"; "PLUS"; "COMMA"; "MINUS"; "PERIOD"; "SLASH";
   "0"; "1"; "2"; "3"; "4"; "5"; "6"; "7"; "8"; "9"; "COLON"; "SEMICOLON";
   "LESS"; "EQUALS"; "GREATER"; "QUESTION"; "AT"; "LEFTBRACKET";
   "BACKSLASH"; "RIGHTBRACKET"; "CARET"; "UNDERSCORE"; "BACKQUOTE"; "a";
   "b"; "c"; "d"; "e"; "f"; "g"; "h"; "i"; "j"; "k"; "l"; "m"; "n"; "o";
   "p"; "q"; "r"; "s"; "t"; "u"; "v"; "w"; "x"; "y"; "z"; "CAPSLOCK"; "F1";
   "F2"; "F3"; "F4"; "F5"; "F6"; "F7"; "F8"; "F9"; "F10"; "F11"; "F12";
   "PRINTSCREEN"; "SCROLLLOCK"; "PAUSE"; "INSERT"; "HOME"; "PAGEUP";
   "DELETE"; "END"; "PAGEDOWN"; "RIGHT"; "LEFT"; "DOWN"; "UP";
   "NUMLOCKCLEAR"; "KP_DIVIDE"; "KP_MULTIPLY"; "KP_MINUS"; "KP_PLUS";
   "KP_ENTER"; "KP_1"; "KP_2"; "KP_3"; "KP_4"; "KP_5"; "KP_6"; "KP_7";
   "KP_8"; "KP_9"; "KP_0"; "KP_PERIOD"; "APPLICATION"; "POWER";
   "KP_EQUALS"; "F13"; "F14"; "F15"; "F16"; "F17"; "F18"; "F19"; "F20";
   "F21"; "F22"; "F23"; "F24"; "EXECUTE"; "HELP"; "MENU"; "SELECT"; "STOP";
   "AGAIN"; "UNDO"; "CUT"; "COPY"; "PASTE"; "FIND"; "MUTE"; "VOLUMEUP";
   "VOLUMEDOWN"; "KP_COMMA"; "KP_EQUALSAS400"; "ALTERASE"; "SYSREQ";
   "CANCEL"; "CLEAR"; "PRIOR"; "RETURN2"; "SEPARATOR"; "OUT"; "OPER";
   "CLEARAGAIN"; "CRSEL"; "EXSEL"; "KP_00"; "KP_000"; "THOUSANDSSEPARATOR";
   "DECIMALSEPARATOR"; "CURRENCYUNIT"; "CURRENCYSUBUNIT"; "KP_LEFTPAREN";
   "KP_RIGHTPAREN"; "KP_LEFTBRACE"; "KP_RIGHTBRACE"; "KP_TAB";
   "KP_BACKSPACE"; "KP_A"; "KP_B"; "KP_C"; "KP_D"; "KP_E"; "KP_F";
   "KP_XOR"; "KP_POWER"; "KP_PERCENT"; "KP_LESS"; "KP_GREATER";
   "KP_AMPERSAND"; "KP_DBLAMPERSAND"; "KP_VERTICALBAR";
   "KP_DBLVERTICALBAR"; "KP_COLON"; "KP_HASH"; "KP_SPACE"; "KP_AT";
   "KP_EXCLAM"; "KP_MEMSTORE"; "KP_MEMRECALL"; "KP_MEMCLEAR"; "KP_MEMADD";
   "KP_MEMSUBTRACT"; "KP_MEMMULTIPLY"; "KP_MEMDIVIDE"; "KP_PLUSMINUS";
   "KP_CLEAR"; "KP_CLEARENTRY"; "KP_BINARY"; "KP_OCTAL"; "KP_DECIMAL";
   "KP_HEXADECIMAL"; "LCTRL"; "LSHIFT"; "LALT"; "LGUI"; "RCTRL"; "RSHIFT";
   "RALT"; "RGUI"; "MODE"; "AUDIONEXT"; "AUDIOPREV"; "AUDIOSTOP";
   "AUDIOPLAY"; "AUDIOMUTE"; "MEDIASELECT"; "WWW"; "MAIL"; "CALCULATOR";
   "COMPUTER"; "AC_SEARCH"; "AC_HOME"; "AC_BACK"; "AC_FORWARD"; "AC_STOP";
   "AC_REFRESH"; "AC_BOOKMARKS"; "BRIGHTNESSDOWN"; "BRIGHTNESSUP";
   "DISPLAYSWITCH"; "KBDILLUMTOGGLE"; "KBDILLUMDOWN"; "KBDILLUMUP";
   "EJECT"; "SLEEP"].

(** Modelled from the spec: [LuaWrapper::createSystemVariable]
    ([engine/lua_wrapper.h]) is not part of the sources.  The scripting
    state is the finite map from a system table and a variable name to the
    integer stored there, and the call binds the variable to the value. *)
Definition createSystemVariable (system var_name : string) (value : Z)
    (L : gmap (string * string) Z) : gmap (string * string) Z :=
  <[(system, var_name) := value]> L.

Section LuaAPI.

(** The constants of [SDL.h], by identifier: [SDL_SCANCODE "A"] is
    [SDL_SCANCODE_A] and [SDLK "RETURN"] is [SDLK_RETURN]. *)
Variable SDL_SCANCODE : string -> Z.
Variable SDLK : string -> Z.

Definition REGISTER_SCANCODE (L : gmap (string * string) Z) (SCANCODE : string)
  : gmap (string * string) Z :=
  createSystemVariable "Engine" ("INPUT_SCANCODE_" +:+ SCANCODE)
    (SDL_SCANCODE SCANCODE) L.

Definition REGISTER_KEYCODE (L : gmap (string * string) Z) (KEYCODE : string)
  : gmap (string * string) Z :=
  createSystemVariable "Engine" ("INPUT_KEYCODE_" +:+ KEYCODE) (SDLK KEYCODE) L.

Definition registerLuaAPI (L : gmap (string * string) Z)
  : gmap (string * string) Z :=
  fold_left REGISTER_KEYCODE keycodes (fold_left REGISTER_SCANCODE scancodes L).

End LuaAPI.

(** The gamepad system once [removeDevice(5)] has been called. *)
Definition pending_system : InputSystemImpl :=
  mkInputSystemImpl (mkAllocator []) 1 2
    [mkEvent DEVICE_ADDED 5; mkEvent DEVICE_REMOVED 5] false (mkVec2 0 0)
    [2; 1; 5] [5].

(** A [ControllerDevice::shutdown] that does not call back. *)
Definition quiet_shutdown : View -> list Call := fun _ => [].

(** The calls that collaborators issue while [update(dt)] runs on [s], in
    the order in which they issue them: those of the device loop, replayed
    device by device on the state the loop has reached, then those of
    [ControllerDevice::frame].  The list stops with the calls of the
    collaborator during which an assertion fails. *)
Fixpoint devices_calls (env : Collaborators) (dt : float) (ds : list DevicePtr)
    (s : InputSystemImpl) : list Call :=
  match ds with
  | [] => []
  | d :: ds' =>
      let cs := Device_update env s d dt in
      match run_calls cs s with
      | Ok s1 => cs ++ devices_calls env dt ds' s1
      | AssertionFailed => cs
      end
  end.

Definition issued_calls (env : Collaborators) (dt : float) (s : InputSystemImpl)
  : list Call :=
  let s2 := frame_start s in
  let cs := devices_calls env dt (m_devices s2) s2 in
  match run_calls cs s2 with
  | Ok s3 => cs ++ ControllerDevice_frame env dt (observe s3)
  | AssertionFailed => cs
  end.


(** * Properties *)

(** ** The fault monad *)

Lemma bind_Ok {A B : Type} (r : Result A) (k : A -> Result B) (b : B) :
  bind r k = Ok b <-> exists a, r = Ok a /\ k a = Ok b.
Proof.
  destruct r as [a|]; simpl; split.
  - intros H; exists a; auto.
  - intros (a' & Ha & Hk); congruence.
  - discriminate.
  - intros (a' & Ha & _); discriminate.
Qed.

Ltac inv_bind H :=
  let a := fresh "s" in
  let Ha := fresh "Hrun" in
  apply bind_Ok in H; destruct H as (a & Ha & H).

(** ** [eraseItem] *)

Lemma eraseItem_sublist (d : DevicePtr) (a : list DevicePtr) :
  sublist (eraseItem d a) a.
Proof.
  induction a as [|x a IH]; simpl.
  - constructor.
  - destruct (Nat.eqb x d).
    + by apply sublist_cons.
    + by apply sublist_skip.
Qed.

Lemma eraseItem_absent (d : DevicePtr) (a : list DevicePtr) :
  d ∉ a -> eraseItem d a = a.
Proof.
  induction a as [|x a IH]; simpl; intros Hd; [done|].
  apply not_elem_of_cons in Hd as [Hne Hd].
  destruct (Nat.eqb_spec x d); [congruence|].
  by rewrite IH.
Qed.

Lemma eraseItem_count_same (d : DevicePtr) (a : list DevicePtr) :
  count_occ Nat.eq_dec (eraseItem d a) d = pred (count_occ Nat.eq_dec a d).
Proof.
  induction a as [|x a IH]; simpl; [done|].
  destruct (Nat.eqb_spec x d) as [->|Hne].
  - by destruct (Nat.eq_dec d d).
  - simpl. by destruct (Nat.eq_dec x d).
Qed.

Lemma eraseItem_count_other (d d' : DevicePtr) (a : list DevicePtr) :
  d <> d' ->
  count_occ Nat.eq_dec (eraseItem d a) d' = count_occ Nat.eq_dec a d'.
Proof.
  intros Hne. induction a as [|x a IH]; simpl; [done|].
  destruct (Nat.eqb_spec x d) as [->|Hx].
  - by destruct (Nat.eq_dec d d').
  - simpl. destruct (Nat.eq_dec x d'); by rewrite IH.
Qed.

Lemma eraseItem_count_le (d d' : DevicePtr) (a : list DevicePtr) :
  (count_occ Nat.eq_dec (eraseItem d a) d' <= count_occ Nat.eq_dec a d')%nat.
Proof.
  destruct (Nat.eq_dec d d') as [->|Hne].
  - rewrite eraseItem_count_same. lia.
  - by rewrite eraseItem_count_other.
Qed.

Lemma erase_all_sublist (rs a : list DevicePtr) : sublist (erase_all rs a) a.
Proof.
  revert a. induction rs as [|r rs IH]; intros a; simpl; [done|].
  etrans; [apply IH | apply eraseItem_sublist].
Qed.

Lemma erase_all_count_le (rs a : list DevicePtr) (d : DevicePtr) :
  (count_occ Nat.eq_dec (erase_all rs a) d <= count_occ Nat.eq_dec a d)%nat.
Proof.
  revert a. induction rs as [|r rs IH]; intros a; simpl; [done|].
  etrans; [apply IH | apply eraseItem_count_le].
Qed.

Lemma erase_all_count_lt (rs a : list DevicePtr) (d : DevicePtr) :
  d ∈ rs -> d ∈ a ->
  (count_occ Nat.eq_dec (erase_all rs a) d < count_occ Nat.eq_dec a d)%nat.
Proof.
  revert a. induction rs as [|r rs IH]; intros a Hrs Ha; simpl.
  - by apply elem_of_nil in Hrs.
  - destruct (Nat.eq_dec r d) as [->|Hne].
    + pose proof (erase_all_count_le rs (eraseItem d a) d) as Hle.
      rewrite eraseItem_count_same in Hle.
      apply list_elem_of_In, (count_occ_In Nat.eq_dec) in Ha. lia.
    + apply elem_of_cons in Hrs as [->|Hrs]; [done|].
      rewrite <- (eraseItem_count_other r d a Hne).
      apply IH; [done|].
      apply list_elem_of_In, (count_occ_In Nat.eq_dec).
      rewrite eraseItem_count_other by done.
      by apply (count_occ_In Nat.eq_dec), list_elem_of_In.
Qed.

Lemma erase_all_once (rs a : list DevicePtr) (d : DevicePtr) :
  d ∈ rs -> count_occ Nat.eq_dec a d = 1%nat -> d ∉ erase_all rs a.
Proof.
  intros Hrs Hone Hin.
  assert (d ∈ a) as Ha.
  { apply list_elem_of_In, (count_occ_In Nat.eq_dec). lia. }
  pose proof (erase_all_count_lt rs a d Hrs Ha) as Hlt.
  apply list_elem_of_In, (count_occ_In Nat.eq_dec) in Hin. lia.
Qed.

Lemma eraseItem_length (d : DevicePtr) (a : list DevicePtr) :
  d ∈ a -> S (length (eraseItem d a)) = length a.
Proof.
  induction a as [|x a IH]; simpl; intros Hd.
  - by apply elem_of_nil in Hd.
  - destruct (Nat.eqb_spec x d) as [->|Hne]; [done|].
    apply elem_of_cons in Hd as [->|Hd]; [done|].
    simpl. by rewrite IH.
Qed.

Lemma erase_all_length_lt (rs a : list DevicePtr) (d : DevicePtr) :
  d ∈ rs -> d ∈ a -> (length (erase_all rs a) < length a)%nat.
Proof.
  revert a. induction rs as [|r rs IH]; intros a Hrs Ha; simpl.
  - by apply elem_of_nil in Hrs.
  - destruct (decide (r ∈ a)) as [Hr|Hr].
    + pose proof (sublist_length _ _ (erase_all_sublist rs (eraseItem r a))).
      pose proof (eraseItem_length r a Hr). lia.
    + rewrite (eraseItem_absent r a Hr).
      apply elem_of_cons in Hrs as [->|Hrs]; [done|].
      by apply IH.
Qed.

Lemma erase_all_builtin (rs rest : list DevicePtr) (k m : DevicePtr) :
  Forall (fun d => d <> k /\ d <> m) rs ->
  erase_all rs (k :: m :: rest) = k :: m :: erase_all rs rest.
Proof.
  revert rest. induction rs as [|r rs IH]; intros rest Hrs; simpl; [done|].
  apply Forall_cons in Hrs as [[Hk Hm] Hrs].
  destruct (Nat.eqb_spec k r); [congruence|].
  destruct (Nat.eqb_spec m r); [congruence|].
  by apply IH.
Qed.

(** ** Sequences of mutator calls *)

Lemma removeDevice_Ok (d : DevicePtr) (s s' : InputSystemImpl) :
  removeDevice d s = Ok s' <->
  d <> m_keyboard_device s /\ d <> m_mouse_device s
  /\ s' = injectEvent (mkEvent DEVICE_REMOVED d)
            (set_to_remove (m_to_remove s ++ [d]) s).
Proof.
  unfold removeDevice.
  destruct (Nat.eqb_spec d (m_keyboard_device s));
    destruct (Nat.eqb_spec d (m_mouse_device s)); simpl;
    split; try discriminate; try (intros (? & ? & ?); congruence).
  intros [= <-]; auto.
Qed.

Lemma removeDevice_builtin (d : DevicePtr) (s : InputSystemImpl) :
  d = m_keyboard_device s \/ d = m_mouse_device s ->
  removeDevice d s = AssertionFailed.
Proof.
  unfold removeDevice. intros [->| ->].
  - by rewrite Nat.eqb_refl.
  - rewrite Nat.eqb_refl. by destruct (Nat.eqb _ _).
Qed.

Lemma perform_frame (c : Call) (s s' : InputSystemImpl) :
  perform c s = Ok s' -> frame_of [c] s s'.
Proof.
  unfold frame_of.
  destruct c as [b|d|d|e|p]; simpl.
  1,2,4,5: intros [= <-]; simpl; rewrite ?app_nil_r; repeat split; constructor.
  intros (Hk & Hm & ->)%removeDevice_Ok; simpl.
  rewrite ?app_nil_r. repeat split; auto.
Qed.

Lemma frame_of_nil (s : InputSystemImpl) : frame_of [] s s.
Proof. unfold frame_of; simpl. rewrite !app_nil_r. repeat split; constructor. Qed.

Lemma frame_of_app (cs1 cs2 : list Call) (s s1 s2 : InputSystemImpl) :
  frame_of cs1 s s1 -> frame_of cs2 s1 s2 -> frame_of (cs1 ++ cs2) s s2.
Proof.
  unfold frame_of.
  intros (Hd1 & Hr1 & He1 & Ha1 & Hm1 & Hk1 & Hf1)
         (Hd2 & Hr2 & He2 & Ha2 & Hm2 & Hk2 & Hf2).
  rewrite !flat_map_app, !app_assoc.
  rewrite <- Hd1, <- Hr1, <- He1.
  repeat split; try congruence.
  rewrite Forall_app. split; [done|].
  by rewrite <- Hk1, <- Hm1.
Qed.

Lemma run_calls_app (cs1 cs2 : list Call) (s : InputSystemImpl) :
  run_calls (cs1 ++ cs2) s = bind (run_calls cs1 s) (run_calls cs2).
Proof.
  revert s. induction cs1 as [|c cs1 IH]; intros s; simpl; [done|].
  destruct (perform c s); simpl; auto.
Qed.

Lemma run_calls_frame (cs : list Call) (s s' : InputSystemImpl) :
  run_calls cs s = Ok s' -> frame_of cs s s'.
Proof.
  revert s. induction cs as [|c cs IH]; intros s; simpl.
  - intros [= <-]. apply frame_of_nil.
  - intros H. inv_bind H.
    apply (frame_of_app [c] cs s s0 s'); [by apply perform_frame | by apply IH].
Qed.

Lemma run_calls_cursor (cs : list Call) (s s' : InputSystemImpl) :
  run_calls cs s = Ok s' ->
  Forall (fun c => is_setCursorPosition c = false) cs ->
  m_cursor_pos s' = m_cursor_pos s.
Proof.
  revert s. induction cs as [|c cs IH]; intros s; simpl.
  - by intros [= <-].
  - intros H [Hc Hcs]%Forall_cons. inv_bind H.
    rewrite (IH _ H Hcs).
    destruct c; simpl in *; try discriminate; try (by injection Hrun as <-).
    by apply removeDevice_Ok in Hrun as (_ & _ & ->).
Qed.

(** A sequence of calls succeeds exactly when it asks for the removal of
    no built-in device. *)
Lemma run_calls_Ok (cs : list Call) (s : InputSystemImpl) :
  Forall (fun d => d <> m_keyboard_device s /\ d <> m_mouse_device s)
    (flat_map call_removed cs) ->
  exists s', run_calls cs s = Ok s'.
Proof.
  revert s. induction cs as [|c cs IH]; intros s; simpl; [eauto|].
  rewrite Forall_app. intros [Hc Hcs].
  assert (exists s1, perform c s = Ok s1) as [s1 H1].
  { destruct c; simpl; eauto.
    apply Forall_cons in Hc as [[Hk Hm] _].
    eexists. by apply removeDevice_Ok. }
  rewrite H1; simpl. apply IH.
  apply perform_frame in H1 as (_ & _ & _ & _ & -> & -> & _). done.
Qed.

Lemma run_calls_builtin (cs : list Call) (s : InputSystemImpl) (d : DevicePtr) :
  d = m_keyboard_device s \/ d = m_mouse_device s ->
  CallRemoveDevice d ∈ cs ->
  run_calls cs s = AssertionFailed.
Proof.
  intros Hd Hin.
  destruct (run_calls cs s) as [s'|] eqn:Hrun; [|done].
  apply run_calls_frame in Hrun as (_ & _ & _ & _ & _ & _ & Hf).
  rewrite Forall_forall in Hf.
  destruct (Hf d) as [Hk Hm].
  - apply list_elem_of_In, in_flat_map. exists (CallRemoveDevice d).
    split; [by apply list_elem_of_In | by left].
  - destruct Hd; congruence.
Qed.

(** ** Finalisation of pending removals *)

Lemma finalize_fold (rs : list DevicePtr) (s : InputSystemImpl) :
  fold_left finalize_one rs s =
  mkInputSystemImpl (mkAllocator (released (m_allocator s) ++ rs))
    (m_mouse_device s) (m_keyboard_device s) (m_events s) (m_is_enabled s)
    (m_cursor_pos s) (erase_all rs (m_devices s)) (m_to_remove s).
Proof.
  revert s. induction rs as [|r rs IH]; intros s; simpl.
  - rewrite app_nil_r. by destruct s as [[?] ? ? ? ? ? ? ?].
  - rewrite IH; simpl. by rewrite <- app_assoc.
Qed.

Lemma finalize_removals_eq (s : InputSystemImpl) :
  finalize_removals s =
  mkInputSystemImpl (mkAllocator (released (m_allocator s) ++ m_to_remove s))
    (m_mouse_device s) (m_keyboard_device s) (m_events s) (m_is_enabled s)
    (m_cursor_pos s) (erase_all (m_to_remove s) (m_devices s)) (m_to_remove s).
Proof. apply finalize_fold. Qed.

(** ** The update, as finalisation followed by collaborator calls *)

Section UpdateFacts.

Variable env : Collaborators.

Lemma Device_update_issued (s : InputSystemImpl) (d : DevicePtr) (dt : float) :
  Forall (issued_during env dt) (Device_update env s d dt).
Proof.
  unfold Device_update.
  destruct (Nat.eqb d (m_mouse_device s)); [constructor|].
  destruct (Nat.eqb d (m_keyboard_device s)); [constructor|].
  apply Forall_forall. intros c Hc. left. eauto.
Qed.

Lemma update_devices_calls (dt : float) (ds : list DevicePtr)
    (s s' : InputSystemImpl) :
  update_devices env dt ds s = Ok s' ->
  exists cs, run_calls cs s = Ok s' /\ Forall (issued_during env dt) cs.
Proof.
  revert s. induction ds as [|d ds IH]; intros s; simpl.
  - intros [= <-]. exists []. split; [done | constructor].
  - intros H. inv_bind H.
    destruct (IH _ H) as (cs & Hcs & Hiss).
    exists (Device_update env s d dt ++ cs). split.
    + rewrite run_calls_app, Hrun. exact Hcs.
    + apply Forall_app. split; [apply Device_update_issued | done].
Qed.

Lemma update_calls (dt : float) (s s' : InputSystemImpl) :
  update env dt s = Ok s' ->
  exists cs, run_calls cs (frame_start s) = Ok s' /\ Forall (issued_during env dt) cs.
Proof.
  unfold update. intros H. inv_bind H.
  apply update_devices_calls in Hrun as (cs & Hcs & Hiss).
  exists (cs ++ ControllerDevice_frame env dt (observe s0)). split.
  - rewrite run_calls_app. fold (frame_start s) in Hcs. by rewrite Hcs.
  - apply Forall_app. split; [done|].
    apply Forall_forall. intros c Hc. right. eauto.
Qed.

(** ** The registry invariant *)

Lemma registry_ok_run_calls (cs : list Call) (s s' : InputSystemImpl) :
  registry_ok s -> run_calls cs s = Ok s' -> registry_ok s'.
Proof.
  intros [[rest Hd] Hr] (Hd' & Hr' & _ & _ & Hm & Hk & Hf)%run_calls_frame.
  unfold registry_ok, builtin_free. rewrite Hd', Hr', Hm, Hk, Hd. split.
  - by exists (rest ++ flat_map call_added cs).
  - apply Forall_app. by split.
Qed.

Lemma registry_ok_frame_start (s : InputSystemImpl) :
  registry_ok s -> registry_ok (frame_start s).
Proof.
  intros [[rest Hd] Hr].
  unfold registry_ok, builtin_free, frame_start.
  rewrite finalize_removals_eq; simpl. split; [|done].
  rewrite Hd, (erase_all_builtin _ _ _ _ Hr). eauto.
Qed.

Lemma registry_ok_update (dt : float) (s s' : InputSystemImpl) :
  registry_ok s -> update env dt s = Ok s' -> registry_ok s'.
Proof.
  intros Hok (cs & Hcs & _)%update_calls.
  eapply registry_ok_run_calls; [|exact Hcs].
  by apply registry_ok_frame_start.
Qed.

Lemma registry_ok_step (op : Op) (s s' : InputSystemImpl) :
  registry_ok s -> step env op s = Ok s' -> registry_ok s'.
Proof.
  destruct op as [c|dt]; simpl; intros Hok H.
  - apply (registry_ok_run_calls [c] s s' Hok). simpl. by rewrite H.
  - by eapply registry_ok_update.
Qed.

Lemma registry_ok_reachable (s : InputSystemImpl) :
  reachable env s -> registry_ok s.
Proof.
  induction 1 as [a m k c s Hne Hnew|op s s' _ IH Hstep].
  - unfold InputSystemImpl_new in Hnew.
    eapply registry_ok_run_calls; [|exact Hnew].
    split; simpl; [eauto | constructor].
  - by eapply registry_ok_step.
Qed.

Lemma registry_ok_getDevice (s : InputSystemImpl) :
  registry_ok s ->
  getDevice 0 s = Some (getKeyboardDevice s)
  /\ getDevice 1 s = Some (getMouseDevice s).
Proof. intros [[rest Hd] _]. unfold getDevice; simpl. by rewrite Hd. Qed.

End UpdateFacts.

(** ** Independence from the enabled flag *)

Lemma same_but_enabled_fields (s1 s2 : InputSystemImpl) :
  same_but_enabled s1 s2 <->
  m_allocator s1 = m_allocator s2
  /\ m_mouse_device s1 = m_mouse_device s2
  /\ m_keyboard_device s1 = m_keyboard_device s2
  /\ m_events s1 = m_events s2
  /\ m_cursor_pos s1 = m_cursor_pos s2
  /\ m_devices s1 = m_devices s2
  /\ m_to_remove s1 = m_to_remove s2.
Proof.
  unfold same_but_enabled, set_is_enabled. destruct s1, s2; simpl. split.
  - intros [= -> -> -> -> -> -> ->]. by repeat split.
  - intros (-> & -> & -> & -> & -> & -> & ->). done.
Qed.

Lemma same_but_enabled_observe (s1 s2 : InputSystemImpl) :
  same_but_enabled s1 s2 -> observe s1 = observe s2.
Proof.
  intros (_ & Hm & Hk & He & Hc & Hd & _)%same_but_enabled_fields.
  unfold observe, getCursorPosition, getMouseDevice, getKeyboardDevice.
  by rewrite Hm, Hk, He, Hc, Hd.
Qed.

Lemma perform_same (c : Call) (s1 s2 : InputSystemImpl) :
  same_but_enabled s1 s2 ->
  Result_rel same_but_enabled (perform c s1) (perform c s2).
Proof.
  intros H. pose proof H as (Ha & Hm & Hk & He & Hc & Hd & Hr)%same_but_enabled_fields.
  destruct c as [b|d|d|e|p]; simpl;
    try (apply same_but_enabled_fields; simpl; repeat split; congruence).
  unfold removeDevice. rewrite Hm, Hk.
  destruct (Nat.eqb d (m_keyboard_device s2)); simpl; [done|].
  destruct (Nat.eqb d (m_mouse_device s2)); simpl; [done|].
  apply same_but_enabled_fields; simpl. repeat split; congruence.
Qed.

Lemma run_calls_same (cs : list Call) (s1 s2 : InputSystemImpl) :
  same_but_enabled s1 s2 ->
  Result_rel same_but_enabled (run_calls cs s1) (run_calls cs s2).
Proof.
  revert s1 s2. induction cs as [|c cs IH]; intros s1 s2 H; simpl; [done|].
  pose proof (perform_same c s1 s2 H) as Hc.
  destruct (perform c s1), (perform c s2); simpl in *; try done.
  by apply IH.
Qed.

Lemma frame_start_same (s1 s2 : InputSystemImpl) :
  same_but_enabled s1 s2 -> same_but_enabled (frame_start s1) (frame_start s2).
Proof.
  intros (Ha & Hm & Hk & He & Hc & Hd & Hr)%same_but_enabled_fields.
  unfold frame_start. rewrite !finalize_removals_eq.
  apply same_but_enabled_fields; simpl. repeat split; congruence.
Qed.

Section EnabledFacts.

Variable env : Collaborators.

Lemma Device_update_same (s1 s2 : InputSystemImpl) (d : DevicePtr) (dt : float) :
  same_but_enabled s1 s2 ->
  Device_update env s1 d dt = Device_update env s2 d dt.
Proof.
  intros H. unfold Device_update.
  rewrite (same_but_enabled_observe s1 s2 H).
  apply same_but_enabled_fields in H as (_ & -> & -> & _). done.
Qed.

Lemma update_devices_same (dt : float) (ds : list DevicePtr)
    (s1 s2 : InputSystemImpl) :
  same_but_enabled s1 s2 ->
  Result_rel same_but_enabled
    (update_devices env dt ds s1) (update_devices env dt ds s2).
Proof.
  revert s1 s2. induction ds as [|d ds IH]; intros s1 s2 H; simpl; [done|].
  rewrite (Device_update_same s1 s2 d dt H).
  pose proof (run_calls_same (Device_update env s2 d dt) s1 s2 H) as Hc.
  destruct (run_calls _ s1), (run_calls _ s2); simpl in *; try done.
  by apply IH.
Qed.

Lemma update_same (dt : float) (s1 s2 : InputSystemImpl) :
  same_but_enabled s1 s2 ->
  Result_rel same_but_enabled (update env dt s1) (update env dt s2).
Proof.
  intros H%frame_start_same. unfold update.
  fold (frame_start s1). fold (frame_start s2).
  pose proof H as (_ & _ & _ & _ & _ & Hd & _)%same_but_enabled_fields.
  rewrite Hd.
  pose proof (update_devices_same dt (m_devices (frame_start s2)) _ _ H) as Hu.
  destruct (update_devices _ _ _ (frame_start s1)) as [a1|],
           (update_devices _ _ _ (frame_start s2)) as [a2|]; simpl in *; try done.
  rewrite (same_but_enabled_observe a1 a2 Hu).
  by apply run_calls_same.
Qed.

End EnabledFacts.

(** ** Worked examples *)

Example getDevice_demo : getDevice 1 fresh_system = Some 1.
Proof. reflexivity. Qed.

Example fresh_system_new :
  InputSystemImpl_new quiet_env (mkAllocator []) 1 2 (mkVec2 0 0) = Ok fresh_system.
Proof. reflexivity. Qed.

Lemma fresh_system_reachable (env : Collaborators) :
  ControllerDevice_init env (observe fresh_system) = [] ->
  reachable env fresh_system.
Proof.
  intros Hinit.
  apply (reachable_new env (mkAllocator []) 1 2 (mkVec2 0 0)); [lia|].
  change (run_calls (ControllerDevice_init env (observe fresh_system))
            fresh_system = Ok fresh_system).
  by rewrite Hinit.
Qed.

(** The scenario of the spec: two devices, a gamepad is added, removed and
    finalised by the next update. *)
Example scenario_demo :
  (let s1 := addDevice 5 fresh_system in
   let* s2 := removeDevice 5 s1 in
   let* s3 := update quiet_env 0.5%float s2 in
   Ok (getDevicesCount s1, last (m_events s1),
       getDevicesCount s2, last (m_events s2),
       getDevicesCount s3, m_devices s3))
  = Ok (3%Z, Some (mkEvent DEVICE_ADDED 5),
        3%Z, Some (mkEvent DEVICE_REMOVED 5),
        2%Z, [2; 1]).
Proof. reflexivity. Qed.

(** ** Counting registrations *)

Lemma count_occ_absent (l : list nat) (d : nat) :
  d ∉ l -> count_occ Nat.eq_dec l d = 0%nat.
Proof.
  intros Hd. apply (count_occ_not_In Nat.eq_dec).
  by rewrite <- list_elem_of_In.
Qed.

Lemma call_added_absent (cs : list Call) (d : DevicePtr) :
  CallAddDevice d ∉ cs -> d ∉ flat_map call_added cs.
Proof.
  intros Hd (c & Hc & Hin)%list_elem_of_In%in_flat_map.
  destruct c; simpl in Hin; try done.
  destruct Hin as [->|[]]. by apply Hd, list_elem_of_In.
Qed.

(** * The specification *)

Section Specification.

Variable env : Collaborators.

(** C1: from a constructed (more generally, any reachable) system, a
    sequence of mutator calls, [addDevice] and [removeDevice] in particular,
    either runs to the end, and then it removed no built-in device, the
    keyboard and the mouse are still in the active devices and
    [removeDevice] on either of them hits the assertion, or it is cut short
    by the assertion because it asked for the removal of a built-in
    device. *)
Theorem builtin_devices_protected (s : InputSystemImpl) (cs : list Call) :
  reachable env s ->
  match run_calls cs s with
  | Ok s' =>
      getKeyboardDevice s' = getKeyboardDevice s
      /\ getMouseDevice s' = getMouseDevice s
      /\ getKeyboardDevice s' ∈ m_devices s'
      /\ getMouseDevice s' ∈ m_devices s'
      /\ removeDevice (getKeyboardDevice s') s' = AssertionFailed
      /\ removeDevice (getMouseDevice s') s' = AssertionFailed
      /\ (forall d, CallRemoveDevice d ∈ cs ->
                    d <> getKeyboardDevice s /\ d <> getMouseDevice s)
  | AssertionFailed =>
      exists d, CallRemoveDevice d ∈ cs
                /\ (d = getKeyboardDevice s \/ d = getMouseDevice s)
  end.
Proof.
  intros Hok%registry_ok_reachable.
  destruct (run_calls cs s) as [s'|] eqn:Hrun.
  - pose proof (registry_ok_run_calls cs s s' Hok Hrun) as [[rest Hd] _].
    assert (forall d, CallRemoveDevice d ∈ cs ->
                      d <> m_keyboard_device s /\ d <> m_mouse_device s) as Hrem.
    { intros d Hin. split; intros ->.
      - by rewrite (run_calls_builtin cs s _ (or_introl eq_refl) Hin) in Hrun.
      - by rewrite (run_calls_builtin cs s _ (or_intror eq_refl) Hin) in Hrun. }
    apply run_calls_frame in Hrun as (_ & _ & _ & _ & Hm & Hk & _).
    unfold getKeyboardDevice, getMouseDevice. rewrite Hd.
    split; [done|]. split; [done|].
    split; [apply elem_of_cons; auto|].
    split; [apply elem_of_cons; right; apply elem_of_cons; auto|].
    split; [apply removeDevice_builtin; auto|].
    split; [apply removeDevice_builtin; auto|done].
  - destruct (decide (Forall (fun d => d <> m_keyboard_device s
                                       /\ d <> m_mouse_device s)
                        (flat_map call_removed cs))) as [Hall|Hex].
    + apply run_calls_Ok in Hall as [s' Hs']. congruence.
    + apply not_Forall_Exists in Hex; [|apply _].
      apply Exists_exists in Hex as (d & Hin & Hd).
      apply list_elem_of_In, in_flat_map in Hin as (c & Hc & Hdc).
      destruct c; simpl in Hdc; try done.
      destruct Hdc as [->|[]].
      exists d. split; [by apply list_elem_of_In|].
      unfold getKeyboardDevice, getMouseDevice. simpl in Hd.
      destruct (decide (d = m_keyboard_device s)); auto.
      destruct (decide (d = m_mouse_device s)); auto.
      exfalso. apply Hd. done.
Qed.

(** C5: [addDevice(D)] increases the device count by one, puts [D] at the
    tail of the enumeration order and appends a [DEVICE_ADDED] event that
    references [D] to the event queue. *)
Theorem addDevice_spec (s : InputSystemImpl) (d : DevicePtr) :
  getDevicesCount (addDevice d s) = (getDevicesCount s + 1)%Z
  /\ m_devices (addDevice d s) = m_devices s ++ [d]
  /\ getDevice (getDevicesCount s) (addDevice d s) = Some d
  /\ m_events (addDevice d s) = m_events s ++ [mkEvent DEVICE_ADDED d].
Proof.
  unfold getDevicesCount, getDevice, addDevice; simpl.
  rewrite length_app; simpl. repeat split.
  - lia.
  - destruct (Z.ltb_spec (Z.of_nat (length (m_devices s))) 0); [lia|].
    rewrite Nat2Z.id. apply list_lookup_middle; reflexivity.
Qed.

(** C6: in every reachable state the keyboard and the mouse are the first
    two entries of the device listing, and the listing is in registration
    order: an operation keeps the devices that stay in their order and
    puts the devices registered by the calls performed during it behind
    them, in the order of those calls. *)
Theorem enumeration_order (s : InputSystemImpl) :
  reachable env s ->
  getDevice 0 s = Some (getKeyboardDevice s)
  /\ getDevice 1 s = Some (getMouseDevice s)
  /\ forall op s', step env op s = Ok s' ->
       exists kept cs,
         sublist kept (m_devices s)
         /\ performed_in env op s s' cs
         /\ m_devices s' = kept ++ flat_map call_added cs.
Proof.
  intros Hok%registry_ok_reachable.
  destruct (registry_ok_getDevice s Hok) as [H0 H1].
  repeat split; [done..|].
  intros [c|dt] s'; simpl; intros H.
  - exists (m_devices s), [c]. repeat split; [done|].
    by apply perform_frame in H as (Hd & _).
  - apply update_calls in H as (cs & Hcs & Hiss).
    pose proof (run_calls_frame _ _ _ Hcs) as (Hd & _).
    exists (m_devices (frame_start s)), cs. repeat split; [|done..].
    unfold frame_start. rewrite finalize_removals_eq; simpl.
    apply erase_all_sublist.
Qed.

(** C7: [getEvents] is the null pointer exactly when [getEventsCount] is
    zero; otherwise it is a view of [getEventsCount] events, the injected
    ones in injection order. *)
Theorem getEvents_spec (s : InputSystemImpl) :
  (getEventsCount s = 0%Z -> getEvents s = None)
  /\ ((0 < getEventsCount s)%Z ->
      exists es, getEvents s = Some es
                 /\ Z.of_nat (length es) = getEventsCount s
                 /\ es = m_events s)
  /\ (forall e, getEvents (injectEvent e s) = Some (m_events s ++ [e])).
Proof.
  unfold getEventsCount, getEvents, injectEvent; simpl.
  repeat split.
  - destruct (m_events s); simpl; [done | lia].
  - destruct (m_events s) as [|e es] eqn:He; simpl; [lia|]. eauto.
  - intros e. destruct (m_events s); done.
Qed.

(** C10: [getDevice(index)] yields a device exactly when
    [0 <= index < getDevicesCount()], and then it is the device at that
    position of the registration order. *)
Theorem getDevice_spec (s : InputSystemImpl) (index : Z) :
  (is_Some (getDevice index s) <-> (0 <= index < getDevicesCount s)%Z)
  /\ ((0 <= index < getDevicesCount s)%Z ->
      getDevice index s = m_devices s !! Z.to_nat index).
Proof.
  unfold getDevice, getDevicesCount.
  destruct (Z.ltb_spec index 0) as [Hneg|Hpos]; split.
  - split; [by intros [? ?] | lia].
  - lia.
  - rewrite lookup_lt_is_Some. lia.
  - done.
Qed.

(** What [update] does with the pending removals: it releases each of them
    and erases it from the active devices, but the list of pending
    removals itself is only ever extended. *)
Lemma update_finalizes (dt : float) (s s' : InputSystemImpl) :
  update env dt s = Ok s' ->
  exists cs,
    Forall (issued_during env dt) cs
    /\ released (m_allocator s') = released (m_allocator s) ++ m_to_remove s
    /\ m_devices s' =
       erase_all (m_to_remove s) (m_devices s) ++ flat_map call_added cs
    /\ m_to_remove s' = m_to_remove s ++ flat_map call_removed cs.
Proof.
  intros (cs & Hcs & Hiss)%update_calls. exists cs.
  apply run_calls_frame in Hcs as (Hd & Hr & _ & Ha & _).
  unfold frame_start in *. rewrite finalize_removals_eq in *; simpl in *.
  rewrite Ha, Hd, Hr. done.
Qed.

(** A removal that was pending at one update is released by that update
    and once more by the update after it. *)
Lemma update_releases_again (dt1 dt2 : float) (s s1 s2 : InputSystemImpl) :
  update env dt1 s = Ok s1 -> update env dt2 s1 = Ok s2 ->
  exists rs,
    released (m_allocator s2) =
    released (m_allocator s) ++ m_to_remove s ++ m_to_remove s ++ rs.
Proof.
  intros (cs1 & _ & Ha1 & _ & Hr1)%update_finalizes
         (cs2 & _ & Ha2 & _ & _)%update_finalizes.
  exists (flat_map call_removed cs1).
  by rewrite Ha2, Ha1, Hr1, <- !app_assoc.
Qed.

(** C2 (the code departs from it): one [removeDevice(5)] followed by two
    updates releases device 5 twice, because [m_to_remove] still holds it
    after the first update; and a device registered at that address after
    the first update is erased by the second one without any new call of
    [removeDevice]. *)
Theorem update_finalizes_twice :
  run quiet_env
    [OpCall (CallRemoveDevice 5); OpUpdate 0.5; OpUpdate 0.5] gamepad_system
  = Ok (mkInputSystemImpl (mkAllocator [5; 5]) 1 2 [] false (mkVec2 0 0)
          [2; 1] [5])
  /\ run quiet_env
       [OpCall (CallRemoveDevice 5); OpUpdate 0.5;
        OpCall (CallAddDevice 5); OpUpdate 0.5] gamepad_system
     = Ok (mkInputSystemImpl (mkAllocator [5; 5]) 1 2 [] false (mkVec2 0 0)
             [2; 1] [5]).
Proof. split; reflexivity. Qed.

(** C3: for a device [D] that is not built in and is registered once, as
    the registry asks of its callers, [removeDevice(D)] appends a
    [DEVICE_REMOVED] event for [D] and leaves the device count and the
    enumeration as they are, [D] included.  [D] stays in the enumeration,
    and the devices keep their indices, through the mutator calls that
    follow; after the next [update(dt)], [D] being registered again neither
    by one of those calls nor by a collaborator during that update, [D] is
    in no position of the enumeration and the devices kept from before the
    update are fewer. *)
Theorem removeDevice_deferred (s : InputSystemImpl) (d : DevicePtr) :
  d <> getKeyboardDevice s -> d <> getMouseDevice s ->
  count_occ Nat.eq_dec (m_devices s) d = 1%nat ->
  exists s1,
    removeDevice d s = Ok s1
    /\ m_events s1 = m_events s ++ [mkEvent DEVICE_REMOVED d]
    /\ getDevicesCount s1 = getDevicesCount s
    /\ m_devices s1 = m_devices s
    /\ d ∈ m_devices s1
    /\ forall cs s2,
         run_calls cs s1 = Ok s2 ->
         CallAddDevice d ∉ cs ->
         (d ∈ m_devices s2)
         /\ (forall i, (0 <= i < getDevicesCount s)%Z ->
                       getDevice i s2 = getDevice i s)
         /\ forall dt s3,
              update env dt s2 = Ok s3 ->
              (forall c, issued_during env dt c -> c <> CallAddDevice d) ->
              (d ∉ m_devices s3)
              /\ (forall i, getDevice i s3 <> Some d)
              /\ exists kept added,
                   m_devices s3 = kept ++ added
                   /\ sublist kept (m_devices s2)
                   /\ (length kept < length (m_devices s2))%nat.
Proof.
  intros Hk Hm Hone.
  assert (d ∈ m_devices s) as Hin.
  { apply list_elem_of_In, (count_occ_In Nat.eq_dec). lia. }
  eexists. split; [by apply removeDevice_Ok|].
  simpl. split; [done|]. split; [done|]. split; [done|]. split; [done|].
  intros cs s2 Hcs Hfresh.
  apply run_calls_frame in Hcs as (Hd2 & Hr2 & _). simpl in Hd2, Hr2.
  assert (d ∈ m_devices s2) as Hin2.
  { rewrite Hd2. apply elem_of_app. by left. }
  assert (count_occ Nat.eq_dec (m_devices s2) d = 1%nat) as Hone2.
  { rewrite Hd2, count_occ_app. unfold DevicePtr in *. rewrite Hone.
    rewrite (count_occ_absent (flat_map _ _)) by by apply call_added_absent.
    lia. }
  assert (d ∈ m_to_remove s2) as Hpend.
  { rewrite Hr2. apply elem_of_app; left.
    apply elem_of_app; right. by apply list_elem_of_singleton. }
  split; [done|]. split.
  { intros i Hi. unfold getDevice, getDevicesCount in *.
    destruct (i <? 0)%Z; [done|]. rewrite Hd2. apply lookup_app_l. lia. }
  intros dt s3 (cs' & H & _ & Hd & _)%update_finalizes Hnew.
  assert (d ∉ m_devices s3) as Hout.
  { rewrite Hd. intros [Hkept|Hadd]%elem_of_app.
    - by apply (erase_all_once _ _ _ Hpend Hone2).
    - revert Hadd. apply call_added_absent. intros Hc.
      rewrite Forall_forall in H. by apply (Hnew _ (H _ Hc)). }
  split; [done|]. split.
  - intros i Hi. apply Hout. unfold getDevice in Hi.
    destruct (i <? 0)%Z; [done|]. by eapply list_elem_of_lookup_2.
  - eexists _, _. split; [exact Hd|]. split.
    + apply erase_all_sublist.
    + by apply (erase_all_length_lt _ _ d).
Qed.

(** C4: [update(dt)] does not depend on the events queued before it, and
    the queue it leaves holds exactly the events of the calls that
    collaborators issued during this very update, starting from the empty
    queue; when they enqueue nothing the queue is empty. *)
Theorem update_resets_events (dt : float) (s : InputSystemImpl) :
  (forall es, update env dt (set_events es s) = update env dt s)
  /\ m_events (frame_start s) = []
  /\ forall s', update env dt s = Ok s' ->
       (exists cs,
           Forall (issued_during env dt) cs
           /\ run_calls cs (frame_start s) = Ok s'
           /\ m_events s' = flat_map call_events cs)
       /\ ((forall c, issued_during env dt c -> call_events c = []) ->
           getEventsCount s' = 0%Z /\ getEvents s' = None).
Proof.
  split; [|split; [done|]].
  - intros es. unfold update. by rewrite !finalize_removals_eq.
  - intros s' (cs & Hcs & Hiss)%update_calls.
    pose proof (run_calls_frame _ _ _ Hcs) as (_ & _ & He & _).
    simpl in He. split; [by exists cs|].
    intros Hquiet.
    assert (flat_map call_events cs = []) as Hnil.
    { clear -Hiss Hquiet. induction Hiss as [|c cs Hc _ IH]; simpl; [done|].
      by rewrite (Hquiet c Hc), IH. }
    unfold getEventsCount, getEvents. by rewrite He, Hnil.
Qed.

(** C8: after [setCursorPosition(p)], whatever operations follow, as long
    as nobody calls [setCursorPosition] in their course,
    [getCursorPosition()] is [p]. *)
Theorem cursor_position_kept (p : Vec2) (ops : list Op) (s s' : InputSystemImpl) :
  Forall (keeps_cursor env) ops ->
  run env ops (setCursorPosition p s) = Ok s' ->
  getCursorPosition s' = p.
Proof.
  assert (forall t t', Forall (keeps_cursor env) ops -> run env ops t = Ok t' ->
                       m_cursor_pos t' = m_cursor_pos t) as Hkeep.
  { induction ops as [|op ops' IH]; intros t t'; simpl.
    - by intros _ [= <-].
    - intros [Hop Hops]%Forall_cons H. inv_bind H.
      rewrite (IH _ _ Hops H).
      destruct op as [c|dt]; simpl in *.
      + apply (run_calls_cursor [c]); [simpl; by rewrite Hrun | by constructor].
      + apply update_calls in Hrun as (cs & Hcs & Hiss).
        rewrite (run_calls_cursor cs _ _ Hcs).
        * unfold frame_start. by rewrite finalize_removals_eq.
        * eapply Forall_impl; [exact Hiss | exact Hop]. }
  intros Hops Hrun. unfold getCursorPosition.
  by rewrite (Hkeep _ _ Hops Hrun).
Qed.

(** C9: [enable(b)] sets the flag and changes no other member; two systems
    that differ at most in the flag answer every query alike, and
    [update(dt)] on them fails on both or leaves two systems that again
    differ at most in the flag. *)
Theorem enable_only_sets_flag (b : bool) (dt : float) (s1 s2 : InputSystemImpl) :
  (m_is_enabled (enable b s1) = b /\ same_but_enabled (enable b s1) s1)
  /\ (same_but_enabled s1 s2 ->
      getAllocator s1 = getAllocator s2
      /\ getEventsCount s1 = getEventsCount s2
      /\ getEvents s1 = getEvents s2
      /\ getCursorPosition s1 = getCursorPosition s2
      /\ getDevicesCount s1 = getDevicesCount s2
      /\ (forall i, getDevice i s1 = getDevice i s2)
      /\ getMouseDevice s1 = getMouseDevice s2
      /\ getKeyboardDevice s1 = getKeyboardDevice s2
      /\ Result_rel same_but_enabled (update env dt s1) (update env dt s2)).
Proof.
  split; [split; [done | by apply same_but_enabled_fields]|].
  intros H. pose proof (update_same env dt s1 s2 H) as Hu.
  apply same_but_enabled_fields in H as (Ha & Hm & Hk & He & Hc & Hd & Hr).
  unfold getAllocator, getEventsCount, getEvents, getCursorPosition,
    getDevicesCount, getDevice, getMouseDevice, getKeyboardDevice.
  rewrite Ha, Hm, Hk, He, Hc, Hd. done.
Qed.

End Specification.

(** ** Instances *)

Lemma gamepad_env_issued (dt : float) (c : Call) :
  issued_during gamepad_env dt c ->
  (exists d, c = CallInjectEvent (mkEvent (DEVICE_SPECIFIC 0) d))
  \/ c = CallAddDevice 7.
Proof.
  intros [(d & v & Hc)|(v & Hc)]; simpl in Hc.
  - apply list_elem_of_singleton in Hc. eauto.
  - destruct (decide (7 ∈ view_devices v)).
    + by apply elem_of_nil in Hc.
    + apply list_elem_of_singleton in Hc. auto.
Qed.

Example gamepad_frame :
  update gamepad_env 0.5 gamepad_system
  = Ok (mkInputSystemImpl (mkAllocator []) 1 2
          [mkEvent (DEVICE_SPECIFIC 0) 5; mkEvent DEVICE_ADDED 7]
          false (mkVec2 0 0) [2; 1; 5; 7] []).
Proof. reflexivity. Qed.

(** A collaborator that registers the device again during the update that
    finalises its removal keeps it in the enumeration. *)
Example removeDevice_reregistered :
  (let* s1 := removeDevice 7 (addDevice 7 fresh_system) in
   let* s2 := update gamepad_env 0.5 s1 in
   Ok (m_devices s2, released (m_allocator s2)))
  = Ok ([2; 1; 7], [7]).
Proof. reflexivity. Qed.

Lemma builtin_devices_protected_witness :
  reachable quiet_env fresh_system
  /\ match run_calls [CallAddDevice 5; CallRemoveDevice 5] fresh_system with
     | Ok s' =>
         getKeyboardDevice s' = getKeyboardDevice fresh_system
         /\ getMouseDevice s' = getMouseDevice fresh_system
         /\ getKeyboardDevice s' ∈ m_devices s'
         /\ getMouseDevice s' ∈ m_devices s'
         /\ removeDevice (getKeyboardDevice s') s' = AssertionFailed
         /\ removeDevice (getMouseDevice s') s' = AssertionFailed
         /\ (forall d, CallRemoveDevice d ∈ [CallAddDevice 5; CallRemoveDevice 5] ->
                       d <> getKeyboardDevice fresh_system
                       /\ d <> getMouseDevice fresh_system)
     | AssertionFailed =>
         exists d, CallRemoveDevice d ∈ [CallAddDevice 5; CallRemoveDevice 5]
                   /\ (d = getKeyboardDevice fresh_system
                       \/ d = getMouseDevice fresh_system)
     end.
Proof.
  assert (reachable quiet_env fresh_system) as H.
  { apply fresh_system_reachable. reflexivity. }
  split; [exact H|].
  exact (builtin_devices_protected quiet_env fresh_system
           [CallAddDevice 5; CallRemoveDevice 5] H).
Defined.

Lemma enumeration_order_witness :
  reachable gamepad_env fresh_system
  /\ getDevice 0 fresh_system = Some 2
  /\ getDevice 1 fresh_system = Some 1
  /\ forall op s', step gamepad_env op fresh_system = Ok s' ->
       exists kept cs,
         sublist kept (m_devices fresh_system)
         /\ performed_in gamepad_env op fresh_system s' cs
         /\ m_devices s' = kept ++ flat_map call_added cs.
Proof.
  assert (reachable gamepad_env fresh_system) as H.
  { apply fresh_system_reachable. reflexivity. }
  split; [exact H|].
  exact (enumeration_order gamepad_env fresh_system H).
Defined.

Lemma removeDevice_deferred_witness :
  5 <> getKeyboardDevice gamepad_system
  /\ 5 <> getMouseDevice gamepad_system
  /\ count_occ Nat.eq_dec (m_devices gamepad_system) 5 = 1%nat
  /\ exists s1 s2 s3,
       removeDevice 5 gamepad_system = Ok s1
       /\ getDevicesCount s1 = 3%Z
       /\ run_calls [CallSetCursorPosition (mkVec2 1 2); CallAddDevice 6] s1
          = Ok s2
       /\ getDevice 2 s2 = Some 5
       /\ update gamepad_env 0.5 s2 = Ok s3
       /\ m_devices s3 = [2; 1; 6; 7]
       /\ (5 ∉ m_devices s3).
Proof.
  assert (5 <> getKeyboardDevice gamepad_system) as Hk by (simpl; lia).
  assert (5 <> getMouseDevice gamepad_system) as Hm by (simpl; lia).
  assert (count_occ Nat.eq_dec (m_devices gamepad_system) 5 = 1%nat) as Hone
    by reflexivity.
  split; [exact Hk|]. split; [exact Hm|]. split; [exact Hone|].
  destruct (removeDevice_deferred gamepad_env gamepad_system 5 Hk Hm Hone)
    as (s1 & Hrm & _ & Hcount & _ & _ & Hnext).
  exists s1.
  assert (Ok s1 = removeDevice 5 gamepad_system) as Hs1 by done.
  injection Hs1 as ->.
  destruct (run_calls [CallSetCursorPosition (mkVec2 1 2); CallAddDevice 6]
              (injectEvent (mkEvent DEVICE_REMOVED 5)
                 (set_to_remove (m_to_remove gamepad_system ++ [5])
                    gamepad_system))) as [s2|] eqn:Hs2;
    [|vm_compute in Hs2; discriminate Hs2].
  assert (CallAddDevice 5
            ∉ [CallSetCursorPosition (mkVec2 1 2); CallAddDevice 6]) as Hfresh.
  { intros H%list_elem_of_In. simpl in H.
    destruct H as [H|[H|[]]]; discriminate H. }
  destruct (Hnext _ s2 Hs2 Hfresh) as (_ & Hidx & Hupd).
  assert (Ok s2 = Ok (addDevice 6 (setCursorPosition (mkVec2 1 2)
                        (injectEvent (mkEvent DEVICE_REMOVED 5)
                           (set_to_remove (m_to_remove gamepad_system ++ [5])
                              gamepad_system))))) as Hs2' by (by rewrite <- Hs2).
  injection Hs2' as ->.
  eexists _, _. split; [exact Hrm|]. split; [exact Hcount|].
  split; [reflexivity|]. split; [reflexivity|].
  split; [reflexivity|]. split; [reflexivity|].
  apply (Hupd 0.5%float _ eq_refl).
  intros c [[d ->]| ->]%gamepad_env_issued; discriminate.
Defined.

Lemma update_resets_events_witness :
  let s := injectEvent (mkEvent (DEVICE_SPECIFIC 3) 1) gamepad_system in
  update gamepad_env 0.5 s = update gamepad_env 0.5 gamepad_system
  /\ exists s' cs,
       update gamepad_env 0.5 s = Ok s'
       /\ Forall (issued_during gamepad_env 0.5) cs
       /\ m_events s' = flat_map call_events cs
       /\ m_events s' = [mkEvent (DEVICE_SPECIFIC 0) 5; mkEvent DEVICE_ADDED 7].
Proof.
  intros s.
  destruct (update_resets_events gamepad_env 0.5 s) as (Hsame & _ & Hev).
  split; [exact (Hsame (m_events gamepad_system))|].
  destruct (Hev _ eq_refl) as [(cs & Hiss & _ & Hcs) _].
  eexists _, cs. split; [reflexivity|]. split; [exact Hiss|].
  split; [exact Hcs | reflexivity].
Defined.

Lemma getEvents_spec_witness :
  (0 < getEventsCount gamepad_system)%Z
  /\ exists es,
       getEvents gamepad_system = Some es
       /\ Z.of_nat (length es) = getEventsCount gamepad_system
       /\ es = [mkEvent DEVICE_ADDED 5].
Proof.
  assert (0 < getEventsCount gamepad_system)%Z as Hpos by reflexivity.
  split; [exact Hpos|].
  exact (proj1 (proj2 (getEvents_spec gamepad_system)) Hpos).
Defined.

Lemma cursor_position_kept_witness :
  let ops := [OpCall (CallAddDevice 5); OpUpdate 0.5;
              OpCall (CallInjectEvent (mkEvent (DEVICE_SPECIFIC 1) 5));
              OpCall (CallRemoveDevice 5); OpUpdate 0.25] in
  Forall (keeps_cursor gamepad_env) ops
  /\ exists s',
       run gamepad_env ops (setCursorPosition (mkVec2 3 4) fresh_system) = Ok s'
       /\ getCursorPosition s' = mkVec2 3 4.
Proof.
  intros ops.
  assert (Forall (keeps_cursor gamepad_env) ops) as Hops.
  { assert (forall dt, keeps_cursor gamepad_env (OpUpdate dt)) as Hupd.
    { intros dt c [[d ->]| ->]%gamepad_env_issued; reflexivity. }
    repeat (apply Forall_cons; split; [first [apply Hupd | reflexivity]|]).
    apply Forall_nil_2. }
  split; [exact Hops|].
  destruct (run gamepad_env ops (setCursorPosition (mkVec2 3 4) fresh_system))
    as [s'|] eqn:Hrun.
  - exists s'. split; [reflexivity|].
    exact (cursor_position_kept gamepad_env (mkVec2 3 4) ops fresh_system s'
             Hops Hrun).
  - vm_compute in Hrun. discriminate Hrun.
Defined.

Lemma enable_only_sets_flag_witness :
  same_but_enabled (enable true gamepad_system) gamepad_system
  /\ getEvents (enable true gamepad_system) = getEvents gamepad_system
  /\ Result_rel same_but_enabled
       (update gamepad_env 0.5 (enable true gamepad_system))
       (update gamepad_env 0.5 gamepad_system).
Proof.
  assert (same_but_enabled (enable true gamepad_system) gamepad_system) as H
    by reflexivity.
  split; [exact H|].
  destruct (enable_only_sets_flag gamepad_env true 0.5
              (enable true gamepad_system) gamepad_system) as [_ Hq].
  destruct (Hq H) as (_ & _ & He & _ & _ & _ & _ & _ & Hu).
  split; [exact He | exact Hu].
Defined.

Lemma getDevice_spec_witness :
  (0 <= 1 < getDevicesCount fresh_system)%Z
  /\ getDevice 1 fresh_system = m_devices fresh_system !! 1%nat.
Proof.
  assert (0 <= 1 < getDevicesCount fresh_system)%Z as H
    by (unfold getDevicesCount; simpl; lia).
  split; [exact H|].
  exact (proj2 (getDevice_spec fresh_system 1) H).
Defined.

(** * Further properties of the code *)

(** ** Helper facts *)

Lemma erase_all_snoc (rs a : list DevicePtr) (d : DevicePtr) :
  erase_all (rs ++ [d]) a = eraseItem d (erase_all rs a).
Proof. unfold erase_all. by rewrite fold_left_app. Qed.

Lemma run_calls_writes (cs : list Call) (s s' : InputSystemImpl) :
  run_calls cs s = Ok s' ->
  m_cursor_pos s' = fold_left call_cursor cs (m_cursor_pos s)
  /\ m_is_enabled s' = fold_left call_enabled cs (m_is_enabled s).
Proof.
  revert s. induction cs as [|c cs IH]; intros s; simpl.
  - by intros [= <-].
  - intros H. inv_bind H. destruct (IH _ H) as [-> ->].
    destruct c; simpl in *; try (by injection Hrun as <-).
    by apply removeDevice_Ok in Hrun as (_ & _ & ->).
Qed.

Lemma release_fold (ds : list DevicePtr) (s : InputSystemImpl) :
  m_allocator (fold_left (fun acc d => LUMIX_DELETE d acc) ds s)
  = mkAllocator (released (m_allocator s) ++ ds).
Proof.
  revert s. induction ds as [|d ds IH]; intros s; simpl.
  - rewrite app_nil_r. by destruct (m_allocator s).
  - rewrite IH; simpl. by rewrite <- app_assoc.
Qed.

Lemma run_app (env : Collaborators) (ops1 ops2 : list Op) (s : InputSystemImpl) :
  run env (ops1 ++ ops2) s = bind (run env ops1 s) (run env ops2).
Proof.
  revert s. induction ops1 as [|op ops1 IH]; intros s; simpl; [done|].
  destruct (step env op s); simpl; auto.
Qed.

Lemma run_OpCall (env : Collaborators) (cs : list Call) (s : InputSystemImpl) :
  run env (map OpCall cs) s = run_calls cs s.
Proof.
  revert s. induction cs as [|c cs IH]; intros s; simpl; [done|].
  destruct (perform c s); simpl; auto.
Qed.

Section StepFacts.

Variable env : Collaborators.

Lemma update_frame_start (dt : float) (s s' : InputSystemImpl) :
  update env dt s = Ok s' ->
  m_mouse_device s' = m_mouse_device s
  /\ m_keyboard_device s' = m_keyboard_device s
  /\ m_to_remove s `prefix_of` m_to_remove s'
  /\ released (m_allocator s') = released (m_allocator s) ++ m_to_remove s.
Proof.
  intros (cs & Hcs & _)%update_calls.
  apply run_calls_frame in Hcs as (_ & Hr & _ & Ha & Hm & Hk & _).
  unfold frame_start in *. rewrite finalize_removals_eq in *; simpl in *.
  rewrite Hm, Hk, Hr, Ha. repeat split. by eexists.
Qed.

Lemma step_trace (op : Op) (s s' : InputSystemImpl) :
  step env op s = Ok s' ->
  m_mouse_device s' = m_mouse_device s
  /\ m_keyboard_device s' = m_keyboard_device s
  /\ m_to_remove s `prefix_of` m_to_remove s'
  /\ exists ds, released (m_allocator s') = released (m_allocator s) ++ ds
                /\ (forall d, d ∈ ds -> d ∈ m_to_remove s).
Proof.
  destruct op as [c|dt]; simpl; intros H.
  - apply perform_frame in H as (_ & Hr & _ & Ha & Hm & Hk & _).
    rewrite Hm, Hk, Hr, Ha. repeat split; [by eexists|].
    exists []. rewrite app_nil_r. split; [done|]. by intros d ?%elem_of_nil.
  - apply update_frame_start in H as (Hm & Hk & Hr & Ha).
    repeat split; [done..|]. by exists (m_to_remove s).
Qed.


End StepFacts.

(** ** Ownership and the update *)

Section UpdateProperties.

Variable env : Collaborators.

(** X1: a successful [update] hands to the allocator exactly the pending
    list, in order and once per entry, and nothing else: a device marked
    twice since the last update is released twice by it. *)
Theorem update_releases_pending (dt : float) (s s' : InputSystemImpl) :
  update env dt s = Ok s' ->
  released (m_allocator s') = released (m_allocator s) ++ m_to_remove s
  /\ forall d,
       count_occ Nat.eq_dec (released (m_allocator s')) d
       = (count_occ Nat.eq_dec (released (m_allocator s)) d
          + count_occ Nat.eq_dec (m_to_remove s) d)%nat.
Proof.
  intros (_ & _ & _ & Ha)%update_frame_start. split; [done|].
  intros d. by rewrite Ha, count_occ_app.
Qed.

(** X2: [removeDevice] does not look the device up.  For a device that is
    not built in and not registered it still succeeds and enqueues
    [DEVICE_REMOVED]; the next update leaves the registry as it would have
    been without the call, and releases the device all the same. *)
Theorem removeDevice_unregistered (d : DevicePtr) (s : InputSystemImpl) :
  d <> getKeyboardDevice s -> d <> getMouseDevice s -> d ∉ m_devices s ->
  exists s1,
    removeDevice d s = Ok s1
    /\ m_events s1 = m_events s ++ [mkEvent DEVICE_REMOVED d]
    /\ m_devices (frame_start s1) = m_devices (frame_start s)
    /\ forall dt s2,
         update env dt s1 = Ok s2 ->
         released (m_allocator s2)
         = released (m_allocator s) ++ m_to_remove s ++ [d].
Proof.
  intros Hk Hm Hd.
  eexists. split; [by apply removeDevice_Ok|]. split; [done|]. split.
  - unfold frame_start. rewrite !finalize_removals_eq; simpl.
    rewrite erase_all_snoc. apply eraseItem_absent.
    intros Hin. apply Hd.
    eapply elem_of_sublist; [exact Hin | apply erase_all_sublist].
  - intros dt s2 (_ & _ & _ & Ha)%update_frame_start. exact Ha.
Qed.


(** X4: when no collaborator calls back, [update] only finalises the
    pending removals and empties the queue; with nothing pending it does
    nothing but empty the queue. *)
Theorem update_quiet (dt : float) (s : InputSystemImpl) :
  (forall c, ~ issued_during env dt c) ->
  update env dt s = Ok (frame_start s)
  /\ (m_to_remove s = [] -> update env dt s = Ok (set_events [] s)).
Proof.
  intros Hquiet.
  assert (forall cs, Forall (issued_during env dt) cs -> cs = []) as Hnil.
  { intros [|c cs] Hcs; [done|].
    apply Forall_cons in Hcs as [Hc _]. by destruct (Hquiet c). }
  assert (forall ds t, update_devices env dt ds t = Ok t) as Hloop.
  { induction ds as [|d ds IH]; intros t; simpl; [done|].
    rewrite (Hnil _ (Device_update_issued env t d dt)). simpl. apply IH. }
  assert (update env dt s = Ok (frame_start s)) as Hupd.
  { unfold update. fold (frame_start s). rewrite Hloop; simpl.
    rewrite (Hnil (ControllerDevice_frame env dt (observe (frame_start s)))).
    - done.
    - apply Forall_forall. intros c Hc. right. eauto. }
  split; [done|].
  intros Hnone. rewrite Hupd. unfold frame_start, finalize_removals.
  by rewrite Hnone.
Qed.

(** X5: over any run of operations the addresses of the built-in devices
    stay what the constructor made them, the list of pending removals only
    grows and the trace of released devices only grows: no operation ever
    takes a device off [m_to_remove]. *)
Theorem run_monotone (ops : list Op) (s s' : InputSystemImpl) :
  run env ops s = Ok s' ->
  getMouseDevice s' = getMouseDevice s
  /\ getKeyboardDevice s' = getKeyboardDevice s
  /\ m_to_remove s `prefix_of` m_to_remove s'
  /\ released (m_allocator s) `prefix_of` released (m_allocator s').
Proof.
  unfold getMouseDevice, getKeyboardDevice.
  revert s. induction ops as [|op ops IH]; intros s; simpl.
  - by intros [= <-].
  - intros H. inv_bind H.
    destruct (IH _ H) as (Hm & Hk & Hr & Ha).
    apply step_trace in Hrun as (Hm0 & Hk0 & Hr0 & ds & Ha0 & _).
    rewrite Hm, Hk. repeat split; [done..| |].
    + by etrans.
    + etrans; [|exact Ha]. rewrite Ha0. by eexists.
Qed.

(** X6: starting from a reachable state, no run of operations ever
    releases the keyboard or the mouse. *)
Theorem builtins_never_released (ops : list Op) (s s' : InputSystemImpl) :
  reachable env s ->
  run env ops s = Ok s' ->
  count_occ Nat.eq_dec (released (m_allocator s')) (getKeyboardDevice s)
  = count_occ Nat.eq_dec (released (m_allocator s)) (getKeyboardDevice s)
  /\ count_occ Nat.eq_dec (released (m_allocator s')) (getMouseDevice s)
     = count_occ Nat.eq_dec (released (m_allocator s)) (getMouseDevice s).
Proof.
  unfold getMouseDevice, getKeyboardDevice.
  intros Hok%registry_ok_reachable.
  revert s Hok. induction ops as [|op ops IH]; intros s Hok; simpl.
  - by intros [= <-].
  - intros H. inv_bind H.
    pose proof (registry_ok_step env op s s0 Hok Hrun) as Hok0.
    destruct (IH _ Hok0 H) as [Hk Hm].
    apply step_trace in Hrun as (Hm0 & Hk0 & _ & ds & Ha0 & Hds).
    rewrite Hk0 in Hk. rewrite Hm0 in Hm. rewrite Hk, Hm, Ha0.
    rewrite !count_occ_app. unfold DevicePtr in *.
    destruct Hok as [_ Hfree]. unfold builtin_free in Hfree.
    rewrite Forall_forall in Hfree.
    split.
    + rewrite (count_occ_absent ds (m_keyboard_device s)); [lia|].
      intros Hin. by destruct (Hfree _ (Hds _ Hin)).
    + rewrite (count_occ_absent ds (m_mouse_device s)); [lia|].
      intros Hin. by destruct (Hfree _ (Hds _ Hin)).
Qed.

End UpdateProperties.

(** ** Device updates, events and the flag *)

Lemma update_devices_reporting (report : DevicePtr -> Event) (dt : float)
    (ds : list DevicePtr) (t : InputSystemImpl) :
  update_devices (reporting_env report) dt ds t
  = Ok (set_events
          (m_events t ++ map report (List.filter (is_external t) ds)) t).
Proof.
  revert t. induction ds as [|d ds IH]; intros t; simpl.
  - rewrite app_nil_r. by destruct t.
  - unfold Device_update, is_external at 1.
    destruct (Nat.eqb d (m_mouse_device t)); simpl; [apply IH|].
    destruct (Nat.eqb d (m_keyboard_device t)); simpl; [apply IH|].
    rewrite IH. unfold set_events, injectEvent, is_external; simpl.
    by rewrite <- app_assoc.
Qed.

(** X7: [update] calls [update(dt)] on the devices that are left after the
    finalisation, once each and in registration order, and the two
    built-in devices enqueue nothing: when every external device enqueues
    one event of its own, the queue after the update lists the external
    devices that are left, in registration order. *)
Theorem update_reports_in_order (report : DevicePtr -> Event) (dt : float)
    (s : InputSystemImpl) :
  update (reporting_env report) dt s
  = Ok (set_events
          (map report
             (List.filter (is_external s)
                (erase_all (m_to_remove s) (m_devices s))))
          (frame_start s)).
Proof.
  unfold update. fold (frame_start s).
  rewrite update_devices_reporting; simpl.
  unfold frame_start. rewrite finalize_removals_eq. reflexivity.
Qed.

Section QueueProperties.

Variable env : Collaborators.

Lemma update_devices_issued (dt : float) (ds : list DevicePtr)
    (s : InputSystemImpl) :
  update_devices env dt ds s = run_calls (devices_calls env dt ds s) s
  /\ Forall (issued_during env dt) (devices_calls env dt ds s).
Proof.
  revert s. induction ds as [|d ds IH]; intros s; simpl.
  - split; [done | constructor].
  - pose proof (Device_update_issued env s d dt) as Hd.
    destruct (run_calls (Device_update env s d dt) s) as [s1|] eqn:H1; simpl.
    + destruct (IH s1) as [Heq Hiss]. split.
      * by rewrite run_calls_app, H1.
      * apply Forall_app. by split.
    + by split.
Qed.

Lemma update_issued (dt : float) (s : InputSystemImpl) :
  update env dt s = run_calls (issued_calls env dt s) (frame_start s)
  /\ Forall (issued_during env dt) (issued_calls env dt s).
Proof.
  unfold update, issued_calls. fold (frame_start s).
  destruct (update_devices_issued dt (m_devices (frame_start s)) (frame_start s))
    as [Heq Hiss].
  rewrite Heq. cbv zeta.
  destruct (run_calls
              (devices_calls env dt (m_devices (frame_start s)) (frame_start s))
              (frame_start s)) as [s3|] eqn:H3.
  - split.
    + by rewrite run_calls_app, H3.
    + apply Forall_app. split; [done|].
      apply Forall_forall. intros c Hc. right. eauto.
  - by split.
Qed.

(** X8: the queue is per frame over whole runs: after a run that ends with
    an [update] followed by direct mutator calls, the queue holds the
    events of the calls that collaborators issued during that last update,
    in the order in which they issued them, followed by the events of the
    direct calls, whatever happened before. *)
Theorem events_since_last_update (ops : list Op) (dt : float) (cs : list Call)
    (s s' : InputSystemImpl) :
  run env (ops ++ OpUpdate dt :: map OpCall cs) s = Ok s' ->
  exists s1,
    run env ops s = Ok s1
    /\ m_events s'
       = flat_map call_events (issued_calls env dt s1)
         ++ flat_map call_events cs
    /\ getEventsCount s'
       = Z.of_nat (length (flat_map call_events (issued_calls env dt s1))
                   + length (flat_map call_events cs)).
Proof.
  rewrite run_app. intros H. inv_bind H. simpl in H. inv_bind H.
  rewrite run_OpCall in H.
  rewrite (proj1 (update_issued dt s0)) in Hrun0.
  apply run_calls_frame in Hrun0 as (_ & _ & He0 & _).
  apply run_calls_frame in H as (_ & _ & He & _).
  exists s0. split; [done|]. simpl in He0.
  assert (m_events s'
          = flat_map call_events (issued_calls env dt s0)
            ++ flat_map call_events cs) as Hev by (by rewrite He, He0).
  split; [done|]. unfold getEventsCount. by rewrite Hev, length_app.
Qed.

(** X9: only [enable] writes the flag: after [enable(b)], whatever
    operations follow, updates included, as long as nobody calls [enable]
    in their course the flag is [b]. *)
Theorem enabled_flag_kept (b : bool) (ops : list Op) (s s' : InputSystemImpl) :
  Forall (keeps_enabled env) ops ->
  run env ops (enable b s) = Ok s' ->
  m_is_enabled s' = b.
Proof.
  assert (forall cs t t', Forall (fun c => is_enable c = false) cs ->
            run_calls cs t = Ok t' -> m_is_enabled t' = m_is_enabled t) as Hcalls.
  { intros cs t t' Hcs (_ & ->)%run_calls_writes.
    generalize (m_is_enabled t).
    induction Hcs as [|c cs Hc _ IH]; intros b0; simpl; [done|].
    rewrite IH. by destruct c. }
  assert (forall t t', Forall (keeps_enabled env) ops -> run env ops t = Ok t' ->
                       m_is_enabled t' = m_is_enabled t) as Hkeep.
  { induction ops as [|op ops' IH]; intros t t'; simpl.
    - by intros _ [= <-].
    - intros [Hop Hops]%Forall_cons H. inv_bind H.
      rewrite (IH _ _ Hops H).
      destruct op as [c|dt]; simpl in *.
      + apply (Hcalls [c]); [by constructor | simpl; by rewrite Hrun].
      + apply update_calls in Hrun as (cs & Hcs & Hiss).
        rewrite (Hcalls cs _ _ (Forall_impl _ _ _ Hiss Hop) Hcs).
        unfold frame_start. by rewrite finalize_removals_eq. }
  intros Hops Hrun. by rewrite (Hkeep _ _ Hops Hrun).
Qed.

(** X10: mutator calls never renumber the registry: whatever sequence of
    calls succeeds, every index valid before it still yields the same
    device; only [update] moves devices to other indices. *)
Theorem getDevice_stable (cs : list Call) (s s' : InputSystemImpl) (index : Z) :
  run_calls cs s = Ok s' ->
  (0 <= index < getDevicesCount s)%Z ->
  getDevice index s' = getDevice index s.
Proof.
  intros (Hd & _)%run_calls_frame Hi. unfold getDevice, getDevicesCount in *.
  destruct (index <? 0)%Z; [done|].
  rewrite Hd. apply lookup_app_l. lia.
Qed.

(** X11: the constructor succeeds when [ControllerDevice::init] asks for
    the removal of neither built-in device, and then the system has the
    two fresh addresses as its built-in devices, the keyboard and the
    mouse as first and second device followed by the devices that [init]
    registered, an event queue holding the events of [init]'s calls only,
    and the flag off unless [init] called [enable]. *)
Theorem InputSystemImpl_new_spec (allocator : IAllocator)
    (mouse keyboard : DevicePtr) (cursor : Vec2) :
  let cs := ControllerDevice_init env
              (mkView [] cursor [keyboard; mouse] mouse keyboard) in
  (Forall (fun d => d <> keyboard /\ d <> mouse) (flat_map call_removed cs) ->
   exists s, InputSystemImpl_new env allocator mouse keyboard cursor = Ok s)
  /\ forall s,
       InputSystemImpl_new env allocator mouse keyboard cursor = Ok s ->
       getAllocator s = allocator
       /\ getMouseDevice s = mouse
       /\ getKeyboardDevice s = keyboard
       /\ m_devices s = keyboard :: mouse :: flat_map call_added cs
       /\ m_events s = flat_map call_events cs
       /\ m_to_remove s = flat_map call_removed cs
       /\ m_is_enabled s = fold_left call_enabled cs false
       /\ getCursorPosition s = fold_left call_cursor cs cursor.
Proof.
  intros cs. unfold InputSystemImpl_new. split.
  - intros Hsafe. by apply run_calls_Ok.
  - intros s H.
    pose proof (run_calls_writes _ _ _ H) as [Hc He].
    apply run_calls_frame in H as (Hd & Hr & Hev & Ha & Hm & Hk & _).
    by repeat split.
Qed.

End QueueProperties.

(** ** Destruction *)

Lemma delete_released (shutdown : View -> list Call) (s : InputSystemImpl)
    (a : IAllocator) :
  InputSystemImpl_delete shutdown s = Ok a ->
  released a
  = released (m_allocator s)
    ++ (m_devices s ++ flat_map call_added (shutdown (observe s))).
Proof.
  unfold InputSystemImpl_delete, release_devices. intros H. inv_bind H.
  injection H as <-. rewrite release_fold; simpl.
  apply run_calls_frame in Hrun as (-> & _ & _ & -> & _). done.
Qed.

Section DestructionProperties.

Variable env : Collaborators.
Variable shutdown : View -> list Call.

(** X12: the destructor releases every entry of the registry, and nothing
    but the registry: each device as many times as it is registered
    (counting what [ControllerDevice::shutdown] registers), whether or not
    it is pending for removal. *)
Theorem delete_releases_registry (s : InputSystemImpl) (a : IAllocator) :
  InputSystemImpl_delete shutdown s = Ok a ->
  forall d,
    count_occ Nat.eq_dec (released a) d
    = (count_occ Nat.eq_dec (released (m_allocator s)) d
       + count_occ Nat.eq_dec (m_devices s) d
       + count_occ Nat.eq_dec (flat_map call_added (shutdown (observe s))) d)%nat.
Proof.
  intros Ha%delete_released d. rewrite Ha, !count_occ_app.
  unfold DevicePtr in *. lia.
Qed.

(** X13: a device that is not built in, is registered once and is not
    pending is released exactly once between [removeDevice] and the end of
    the destructor, whether the system is destroyed right away or after
    one update has finalised the removal, provided no collaborator
    registers it again. *)
Theorem removed_device_released_once (d : DevicePtr) (s : InputSystemImpl) :
  d <> getKeyboardDevice s -> d <> getMouseDevice s ->
  count_occ Nat.eq_dec (m_devices s) d = 1%nat ->
  d ∉ m_to_remove s ->
  exists s1,
    removeDevice d s = Ok s1
    /\ (forall a,
          InputSystemImpl_delete shutdown s1 = Ok a ->
          CallAddDevice d ∉ shutdown (observe s1) ->
          count_occ Nat.eq_dec (released a) d
          = S (count_occ Nat.eq_dec (released (m_allocator s)) d))
    /\ (forall dt s2 a,
          update env dt s1 = Ok s2 ->
          (forall c, issued_during env dt c -> c <> CallAddDevice d) ->
          InputSystemImpl_delete shutdown s2 = Ok a ->
          CallAddDevice d ∉ shutdown (observe s2) ->
          count_occ Nat.eq_dec (released a) d
          = S (count_occ Nat.eq_dec (released (m_allocator s)) d)).
Proof.
  intros Hk Hm Hone Hpend.
  eexists. split; [by apply removeDevice_Ok|]. split.
  - intros a Ha%delete_released Hquiet. simpl in Ha.
    rewrite Ha, !count_occ_app. unfold DevicePtr in *. rewrite Hone.
    rewrite (count_occ_absent (flat_map _ _)) by by apply call_added_absent.
    lia.
  - intros dt s2 a (cs & Hiss & Hrel & Hd & _)%update_finalizes Hnew
           Ha%delete_released Hquiet.
    simpl in Hrel, Hd.
    assert (d ∉ m_devices s2) as Hout.
    { rewrite Hd. intros [Hkept|Hadd]%elem_of_app.
      - revert Hkept. apply erase_all_once; [|done].
        apply elem_of_app; right. by apply list_elem_of_singleton.
      - revert Hadd. apply call_added_absent. intros Hc.
        rewrite Forall_forall in Hiss. by apply (Hnew _ (Hiss _ Hc)). }
    rewrite Ha, Hrel, !count_occ_app. unfold DevicePtr in *.
    rewrite (count_occ_absent (m_to_remove s)) by done.
    rewrite (count_occ_absent (m_devices s2)) by done.
    rewrite (count_occ_absent (flat_map _ _)) by by apply call_added_absent.
    simpl. destruct (Nat.eq_dec d d); [lia|done].
Qed.

(** X14: destroying a system in any reachable state releases the keyboard
    and the mouse. *)
Theorem delete_releases_builtins (s : InputSystemImpl) (a : IAllocator) :
  reachable env s ->
  InputSystemImpl_delete shutdown s = Ok a ->
  getKeyboardDevice s ∈ released a /\ getMouseDevice s ∈ released a.
Proof.
  intros [[rest Hd] _]%registry_ok_reachable Ha%delete_released.
  unfold getKeyboardDevice, getMouseDevice. rewrite Ha, Hd.
  split; apply elem_of_app; right; apply elem_of_app; left.
  - apply elem_of_cons; auto.
  - apply elem_of_cons; right. apply elem_of_cons; auto.
Qed.

End DestructionProperties.

(** ** Scripting constants *)

Lemma scancodes_NoDup : NoDup scancodes.
Proof. apply (bool_decide_unpack _). vm_compute. reflexivity. Qed.

Lemma keycodes_NoDup : NoDup keycodes.
Proof. apply (bool_decide_unpack _). vm_compute. reflexivity. Qed.

Section Registration.

Context {A : Type}.
Variable key : A -> string * string.
Variable val : A -> Z.

Lemma register_other (l : list A) (L : gmap (string * string) Z)
    (k : string * string) :
  k ∉ map key l ->
  fold_left (fun M x => <[key x := val x]> M) l L !! k = L !! k.
Proof.
  revert L. induction l as [|x l IH]; intros L Hk; simpl in *; [done|].
  apply not_elem_of_cons in Hk as [Hne Hk].
  rewrite IH by done. by apply lookup_insert_ne.
Qed.

Lemma register_lookup (l : list A) (L : gmap (string * string) Z) (x : A) :
  NoDup (map key l) -> x ∈ l ->
  fold_left (fun M y => <[key y := val y]> M) l L !! key x = Some (val x).
Proof.
  revert L. induction l as [|y l IH]; intros L Hdup Hx; simpl in *.
  - by apply elem_of_nil in Hx.
  - apply NoDup_cons in Hdup as [Hy Hdup].
    apply elem_of_cons in Hx as [->|Hx].
    + rewrite register_other by done. apply lookup_insert_eq.
    + by apply IH.
Qed.

End Registration.

(** X15: [registerLuaAPI] binds, in the table [Engine], the variable
    [INPUT_SCANCODE_n] to the SDL scancode of [n] for each of the 240
    scancode identifiers and [INPUT_KEYCODE_n] to the SDL keycode of [n]
    for each of the 235 keycode identifiers; no registration overwrites
    another one, and every other variable of the scripting state is left
    as it was. *)
Theorem registerLuaAPI_spec (SDL_SCANCODE SDLK : string -> Z)
    (L : gmap (string * string) Z) :
  length scancodes = 240%nat /\ length keycodes = 235%nat
  /\ (forall n, n ∈ scancodes ->
        registerLuaAPI SDL_SCANCODE SDLK L !! ("Engine", "INPUT_SCANCODE_" +:+ n)
        = Some (SDL_SCANCODE n))
  /\ (forall n, n ∈ keycodes ->
        registerLuaAPI SDL_SCANCODE SDLK L !! ("Engine", "INPUT_KEYCODE_" +:+ n)
        = Some (SDLK n))
  /\ (forall k,
        k ∉ map (fun n => ("Engine", "INPUT_SCANCODE_" +:+ n)) scancodes ->
        k ∉ map (fun n => ("Engine", "INPUT_KEYCODE_" +:+ n)) keycodes ->
        registerLuaAPI SDL_SCANCODE SDLK L !! k = L !! k).
Proof.
  split; [reflexivity|]. split; [reflexivity|].
  unfold registerLuaAPI, REGISTER_SCANCODE, REGISTER_KEYCODE,
    createSystemVariable.
  split; [|split].
  - intros n Hn.
    rewrite (register_other (fun n => ("Engine", "INPUT_KEYCODE_" +:+ n)) SDLK).
    + apply (register_lookup (fun n => ("Engine", "INPUT_SCANCODE_" +:+ n))
               SDL_SCANCODE); [|done].
      apply NoDup_fmap_2; [|apply scancodes_NoDup].
      intros x y Hxy. by simplify_eq/=.
    + intros (m & Hm & _)%list_elem_of_In%in_map_iff. by simplify_eq/=.
  - intros n Hn.
    apply (register_lookup (fun n => ("Engine", "INPUT_KEYCODE_" +:+ n)) SDLK);
      [|done].
    apply NoDup_fmap_2; [|apply keycodes_NoDup].
    intros x y Hxy. by simplify_eq/=.
  - intros k Hs Hk.
    rewrite (register_other (fun n => ("Engine", "INPUT_KEYCODE_" +:+ n)) SDLK)
      by done.
    by apply (register_other (fun n => ("Engine", "INPUT_SCANCODE_" +:+ n))
                SDL_SCANCODE).
Qed.

(** ** Instances of the further properties *)

Lemma quiet_env_issued (dt : float) (c : Call) : ~ issued_during quiet_env dt c.
Proof. intros [(d & v & Hc)|(v & Hc)]; simpl in Hc; by apply elem_of_nil in Hc. Qed.


Example pending_system_removeDevice :
  removeDevice 5 gamepad_system = Ok pending_system.
Proof. reflexivity. Qed.

Lemma update_releases_pending_witness :
  exists s',
    update gamepad_env 0.5 pending_system = Ok s'
    /\ released (m_allocator s') = [5].
Proof.
  destruct (update gamepad_env 0.5 pending_system) as [s'|] eqn:H.
  - exists s'. split; [reflexivity|].
    exact (proj1 (update_releases_pending gamepad_env 0.5 pending_system s' H)).
  - vm_compute in H. discriminate H.
Defined.

Lemma removeDevice_unregistered_witness :
  9 <> getKeyboardDevice gamepad_system
  /\ 9 <> getMouseDevice gamepad_system
  /\ (9 ∉ m_devices gamepad_system)
  /\ exists s1,
       removeDevice 9 gamepad_system = Ok s1
       /\ m_devices (frame_start s1) = [2; 1; 5].
Proof.
  assert (9 <> getKeyboardDevice gamepad_system) as Hk by (simpl; lia).
  assert (9 <> getMouseDevice gamepad_system) as Hm by (simpl; lia).
  assert (9 ∉ m_devices gamepad_system) as Hd.
  { intros H%list_elem_of_In. simpl in H. lia. }
  split; [exact Hk|]. split; [exact Hm|]. split; [exact Hd|].
  destruct (removeDevice_unregistered quiet_env 9 gamepad_system Hk Hm Hd)
    as (s1 & Hrm & _ & Hdev & _).
  exists s1. split; [exact Hrm | exact Hdev].
Defined.


Lemma update_quiet_witness :
  update quiet_env 0.5 gamepad_system = Ok (set_events [] gamepad_system).
Proof.
  exact (proj2 (update_quiet quiet_env 0.5 gamepad_system (quiet_env_issued 0.5))
           eq_refl).
Defined.

Lemma run_monotone_witness :
  exists s',
    run gamepad_env
      [OpCall (CallRemoveDevice 5); OpUpdate 0.5; OpUpdate 0.25] gamepad_system
    = Ok s'
    /\ getMouseDevice s' = 1 /\ getKeyboardDevice s' = 2
    /\ [] `prefix_of` m_to_remove s'
    /\ [] `prefix_of` released (m_allocator s').
Proof.
  destruct (run gamepad_env
              [OpCall (CallRemoveDevice 5); OpUpdate 0.5; OpUpdate 0.25]
              gamepad_system) as [s'|] eqn:H.
  - exists s'. split; [reflexivity|].
    exact (run_monotone gamepad_env _ gamepad_system s' H).
  - vm_compute in H. discriminate H.
Defined.

Lemma builtins_never_released_witness :
  reachable gamepad_env fresh_system
  /\ exists s',
       run gamepad_env
         [OpCall (CallAddDevice 5); OpCall (CallRemoveDevice 5); OpUpdate 0.5;
          OpUpdate 0.25] fresh_system = Ok s'
       /\ count_occ Nat.eq_dec (released (m_allocator s')) 2 = 0%nat
       /\ count_occ Nat.eq_dec (released (m_allocator s')) 1 = 0%nat.
Proof.
  assert (reachable gamepad_env fresh_system) as Hreach.
  { apply fresh_system_reachable. reflexivity. }
  split; [exact Hreach|].
  destruct (run gamepad_env
              [OpCall (CallAddDevice 5); OpCall (CallRemoveDevice 5);
               OpUpdate 0.5; OpUpdate 0.25] fresh_system) as [s'|] eqn:H.
  - exists s'. split; [reflexivity|].
    exact (builtins_never_released gamepad_env _ fresh_system s' Hreach H).
  - vm_compute in H. discriminate H.
Defined.

Lemma events_since_last_update_witness :
  exists s',
    run gamepad_env
      ([OpCall (CallInjectEvent (mkEvent (DEVICE_SPECIFIC 9) 5))]
       ++ OpUpdate 0.5 :: map OpCall [CallRemoveDevice 5]) gamepad_system
    = Ok s'
    /\ m_events s'
       = [mkEvent (DEVICE_SPECIFIC 0) 5; mkEvent DEVICE_ADDED 7;
          mkEvent DEVICE_REMOVED 5]
    /\ getEventsCount s' = 3%Z.
Proof.
  destruct (run gamepad_env
              ([OpCall (CallInjectEvent (mkEvent (DEVICE_SPECIFIC 9) 5))]
               ++ OpUpdate 0.5 :: map OpCall [CallRemoveDevice 5])
              gamepad_system) as [s'|] eqn:H.
  - destruct (events_since_last_update gamepad_env _ 0.5 _ gamepad_system s' H)
      as (s1 & Hs1 & Hev & Hcount).
    injection Hs1 as <-.
    exists s'. split; [reflexivity|]. split; [exact Hev | exact Hcount].
  - vm_compute in H. discriminate H.
Defined.

Lemma enabled_flag_kept_witness :
  let ops := [OpCall (CallAddDevice 5); OpUpdate 0.5;
              OpCall (CallSetCursorPosition (mkVec2 1 2)); OpUpdate 0.25] in
  Forall (keeps_enabled gamepad_env) ops
  /\ exists s',
       run gamepad_env ops (enable true fresh_system) = Ok s'
       /\ m_is_enabled s' = true.
Proof.
  intros ops.
  assert (Forall (keeps_enabled gamepad_env) ops) as Hops.
  { assert (forall dt, keeps_enabled gamepad_env (OpUpdate dt)) as Hupd.
    { intros dt c [[d ->]| ->]%gamepad_env_issued; reflexivity. }
    repeat (apply Forall_cons; split; [first [apply Hupd | reflexivity]|]).
    apply Forall_nil_2. }
  split; [exact Hops|].
  destruct (run gamepad_env ops (enable true fresh_system)) as [s'|] eqn:Hrun.
  - exists s'. split; [reflexivity|].
    exact (enabled_flag_kept gamepad_env true ops fresh_system s' Hops Hrun).
  - vm_compute in Hrun. discriminate Hrun.
Defined.

Lemma getDevice_stable_witness :
  (0 <= 1 < getDevicesCount fresh_system)%Z
  /\ getDevice 1 (addDevice 5 fresh_system) = getDevice 1 fresh_system.
Proof.
  assert (0 <= 1 < getDevicesCount fresh_system)%Z as Hi
    by (unfold getDevicesCount; simpl; lia).
  split; [exact Hi|].
  exact (getDevice_stable [CallAddDevice 5] fresh_system
           (addDevice 5 fresh_system) 1 eq_refl Hi).
Defined.

Lemma InputSystemImpl_new_spec_witness :
  exists s,
    InputSystemImpl_new quiet_env (mkAllocator []) 1 2 (mkVec2 0 0) = Ok s
    /\ m_devices s = [2; 1] /\ m_events s = [] /\ m_is_enabled s = false.
Proof.
  destruct (InputSystemImpl_new_spec quiet_env (mkAllocator []) 1 2 (mkVec2 0 0))
    as [Hex Hfields].
  destruct (Hex (Forall_nil_2 _)) as [s Hs].
  destruct (Hfields s Hs) as (_ & _ & _ & Hd & He & _ & Hen & _).
  exists s. split; [exact Hs|]. split; [exact Hd|]. split; [exact He | exact Hen].
Defined.

Lemma delete_releases_registry_witness :
  InputSystemImpl_delete quiet_shutdown pending_system = Ok (mkAllocator [2; 1; 5])
  /\ forall d,
       count_occ Nat.eq_dec [2; 1; 5] d
       = (0 + count_occ Nat.eq_dec [2; 1; 5] d + 0)%nat.
Proof.
  split; [reflexivity|].
  exact (delete_releases_registry quiet_shutdown pending_system
           (mkAllocator [2; 1; 5]) eq_refl).
Defined.

Lemma removed_device_released_once_witness :
  5 <> getKeyboardDevice gamepad_system
  /\ 5 <> getMouseDevice gamepad_system
  /\ count_occ Nat.eq_dec (m_devices gamepad_system) 5 = 1%nat
  /\ (5 ∉ m_to_remove gamepad_system)
  /\ exists s1 s2 a,
       removeDevice 5 gamepad_system = Ok s1
       /\ update quiet_env 0.5 s1 = Ok s2
       /\ InputSystemImpl_delete quiet_shutdown s2 = Ok a
       /\ count_occ Nat.eq_dec (released a) 5 = 1%nat.
Proof.
  assert (5 <> getKeyboardDevice gamepad_system) as Hk by (simpl; lia).
  assert (5 <> getMouseDevice gamepad_system) as Hm by (simpl; lia).
  assert (count_occ Nat.eq_dec (m_devices gamepad_system) 5 = 1%nat) as Hone
    by reflexivity.
  assert (5 ∉ m_to_remove gamepad_system) as Hpend
    by (intros H; by apply elem_of_nil in H).
  split; [exact Hk|]. split; [exact Hm|]. split; [exact Hone|].
  split; [exact Hpend|].
  destruct (removed_device_released_once quiet_env quiet_shutdown 5
              gamepad_system Hk Hm Hone Hpend) as (s1 & Hrm & _ & Hupd).
  exists s1.
  assert (Ok s1 = Ok pending_system) as Hs1 by (by rewrite <- Hrm).
  injection Hs1 as ->.
  exists (frame_start pending_system), (mkAllocator [5; 2; 1]).
  split; [exact Hrm|]. split; [reflexivity|]. split; [reflexivity|].
  apply (Hupd 0.5%float (frame_start pending_system) (mkAllocator [5; 2; 1]));
    [reflexivity | | reflexivity |].
  - intros c Hc. by destruct (quiet_env_issued 0.5 c).
  - intros H. by apply elem_of_nil in H.
Defined.

Lemma delete_releases_builtins_witness :
  reachable quiet_env fresh_system
  /\ InputSystemImpl_delete quiet_shutdown fresh_system = Ok (mkAllocator [2; 1])
  /\ 2 ∈ [2; 1] /\ 1 ∈ [2; 1].
Proof.
  assert (reachable quiet_env fresh_system) as Hreach.
  { apply fresh_system_reachable. reflexivity. }
  split; [exact Hreach|]. split; [reflexivity|].
  exact (delete_releases_builtins quiet_env quiet_shutdown fresh_system
           (mkAllocator [2; 1]) Hreach eq_refl).
Defined.

Lemma registerLuaAPI_spec_witness :
  "RETURN" ∈ scancodes /\ "RETURN" ∈ keycodes
  /\ registerLuaAPI (fun _ => 40%Z) (fun _ => 13%Z) ∅
       !! ("Engine", "INPUT_SCANCODE_RETURN") = Some 40%Z
  /\ registerLuaAPI (fun _ => 40%Z) (fun _ => 13%Z) ∅
       !! ("Engine", "INPUT_KEYCODE_RETURN") = Some 13%Z.
Proof.
  assert ("RETURN" ∈ scancodes) as Hs
    by (apply (bool_decide_unpack _); vm_compute; reflexivity).
  assert ("RETURN" ∈ keycodes) as Hk
    by (apply (bool_decide_unpack _); vm_compute; reflexivity).
  split; [exact Hs|]. split; [exact Hk|].
  destruct (registerLuaAPI_spec (fun _ => 40%Z) (fun _ => 13%Z) ∅)
    as (_ & _ & Hsc & Hkc & _).
  split; [exact (Hsc "RETURN" Hs) | exact (Hkc "RETURN" Hk)].
Defined.
